(** * InviteRegistrationPager: the invitation registration wizard

    A shallow embedding of
    [login-workflow/src/screens/InviteRegistrationPager.tsx] and of the
    defaults exported by [subScreens/AccountDetails].

    The component is a React function component.  Its local [useState]
    cells are gathered in the record [PagerState]; what it reads from
    its surroundings at render time (route parameters, the injected UI
    context, the store snapshot returned by [useRegistrationUIState],
    the translation function and the asynchronous actions of the shared
    auth library) is gathered in [Env].  Handlers are computations in a
    small monad that threads the local state, records the calls made on
    the outside world and can throw, so that [try]/[catch] is modelled
    as written.  A handler is a closure of the render that created it:
    it reads the state of that render (the argument [r] of the handlers
    below) and its [setState] calls act on the threaded state; one event
    is processed per render.  JavaScript numbers are taken to
    be integers ([Z]); page indices are never fractional in the
    component. *)

From Stdlib Require Import ZArith Bool.
From stdpp Require Import base option list strings gmap fin_maps sorting pretty.

Open Scope Z_scope.

(** ** Values and records of the data model *)

(** A field of a [CustomAccountDetails] object of the shared auth
    library: a string, a number or a boolean. *)
Inductive FieldValue : Type :=
  | VStr (s : string)
  | VNum (z : Z)
  | VBool (b : bool).

(** JavaScript objects with string keys. *)
Abbreviation JsObject := (gmap string FieldValue).

(** Object spread [{ ...a, ...b }]: the fields of [b] win. *)
Definition spread (a b : JsObject) : JsObject := b ∪ a.

(** [AccountDetailInformation] of [subScreens/AccountDetails]. *)
Record AccountDetailInformation : Type := {
  firstName : string;
  lastName : string;
}.

(** [emptyAccountDetailInformation]: the defaults of the account
    details inputs. *)
Definition emptyAccountDetailInformation : AccountDetailInformation :=
  {| firstName := EmptyString; lastName := EmptyString |}.

(** An [AccountDetailInformation] seen as an object, as the spread
    operator sees it. *)
Definition accountDetailObject (d : AccountDetailInformation) : JsObject :=
  <["firstName" := VStr (firstName d)]> (<["lastName" := VStr (lastName d)]> ∅).

(** One entry of [CustomRegistrationDetailsGroup]. *)
Record CustomDetailsEntry : Type := {
  values : JsObject;
  valid : bool;
}.

(** [CustomRegistrationDetailsGroup]: entries keyed by page number. *)
Abbreviation CustomRegistrationDetailsGroup := (gmap nat CustomDetailsEntry).

(** The transit bookkeeping kept by the shared auth library for one
    asynchronous operation. *)
Record TransitState : Type := {
  transitInProgress : bool;
  transitErrorMessage : option string;
  transitSuccess : bool;
  transitComplete : bool;
}.

Record InviteRegistrationState : Type := {
  registrationTransit : TransitState;
  validationTransit : TransitState;
}.

(** The snapshot returned by [useRegistrationUIState]. *)
Record RegistrationUIState : Type := {
  inviteRegistration : InviteRegistrationState;
  eulaTransit : TransitState;
}.

(** [InviteRegistrationPagerParams].  The source reads the parameters
    with [routeParams?.code ?? 'NoCodeEntered'], so both the record and
    its [code] may be absent at run time. *)
Record InviteRegistrationPagerParams : Type := {
  code : option string;
  email : option string;
}.

(** An injected custom page component, known by an identifier. *)
Definition PageComponent : Type := string.

(** The argument of [completeRegistration]. *)
Record RegistrationPayload : Type := {
  payloadPassword : string;
  payloadAccountDetails : JsObject;
}.

(** A thrown JavaScript value. *)
Inductive JsError : Type :=
  | TypeError (msg : string)
  | NetworkError (msg : string).

(** The result of running a piece of code: it returns or it throws
    (a promise resolves or rejects). *)
Inductive outcome (A : Type) : Type :=
  | Resolved (a : A)
  | Rejected (e : JsError).
Arguments Resolved {A} a.
Arguments Rejected {A} e.

(** What the component reads from its surroundings during one render. *)
Record Env : Type := {
  routeParams : option InviteRegistrationPagerParams;
  injectedCustomAccountDetails : option (list (option PageComponent));
  registrationState : RegistrationUIState;
  language : string;
  t : string -> string;
  loadEULA : string -> outcome string;
  validateUserRegistrationRequest : string -> option string -> outcome bool;
  completeRegistration :
    RegistrationPayload -> string -> option string -> outcome unit;
}.

(** The [useState] cells of the component. *)
Record PagerState : Type := {
  hasAcknowledgedError : bool;
  eulaAccepted : bool;
  password : string;
  accountDetails : option AccountDetailInformation;
  customAccountDetails : option CustomRegistrationDetailsGroup;
  eulaContent : option string;
  currentPage : Z;
  accountAlreadyExists : bool;
}.

(** The initial values given to [useState]. *)
Definition initialState : PagerState :=
  {| hasAcknowledgedError := false;
     eulaAccepted := false;
     password := EmptyString;
     accountDetails := None;
     customAccountDetails := Some ∅;
     eulaContent := None;
     currentPage := 0;
     accountAlreadyExists := false |}.

(** Calls made on the outside world, in the order they are made. *)
Inductive Call : Type :=
  | CallLoadEULA (lang : string)
  | CallValidateUserRegistrationRequest (c : string) (e : option string)
  | CallCompleteRegistration
      (p : RegistrationPayload) (c : string) (e : option string)
  | CallNavigate (screen : string)
  | CallDispatch (action : string).

(** ** The handler monad *)

Definition M (A : Type) : Type :=
  PagerState -> outcome A * PagerState * list Call.

Definition ret {A} (a : A) : M A := fun s => (Resolved a, s, []).

Definition throw {A} (e : JsError) : M A := fun s => (Rejected e, s, []).

Definition bind {A B} (m : M A) (k : A -> M B) : M B :=
  fun s =>
    match m s with
    | (Resolved a, s1, tr1) =>
        match k a s1 with
        | (r, s2, tr2) => (r, s2, tr1 ++ tr2)
        end
    | (Rejected e, s1, tr1) => (Rejected e, s1, tr1)
    end.

(** [try { body } catch { handler }] *)
Definition try_catch {A} (body : M A) (handler : M A) : M A :=
  fun s =>
    match body s with
    | (Resolved a, s1, tr1) => (Resolved a, s1, tr1)
    | (Rejected _, s1, tr1) =>
        match handler s1 with
        | (r, s2, tr2) => (r, s2, tr1 ++ tr2)
        end
    end.

(** Calling an external action: the call is recorded and its outcome
    is the outcome of the computation. *)
Definition perform {A} (c : Call) (r : outcome A) : M A :=
  fun s => (r, s, [c]).

(** An outcome computed without touching the state. *)
Definition liftOutcome {A} (r : outcome A) : M A := fun s => (r, s, []).

Definition modify (f : PagerState -> PagerState) : M unit :=
  fun s => (Resolved tt, f s, []).

(** The monad is registered with the [x ← m; k] and [m;; k] notations. *)
#[global] Instance M_ret : MRet M := @ret.
#[global] Instance M_bind : MBind M := fun A B k m => bind m k.

(** ** State setters *)

Definition withHasAcknowledgedError (b : bool) (s : PagerState) : PagerState :=
  {| hasAcknowledgedError := b;
     eulaAccepted := eulaAccepted s;
     password := password s;
     accountDetails := accountDetails s;
     customAccountDetails := customAccountDetails s;
     eulaContent := eulaContent s;
     currentPage := currentPage s;
     accountAlreadyExists := accountAlreadyExists s |}.

Definition withEulaAccepted (b : bool) (s : PagerState) : PagerState :=
  {| hasAcknowledgedError := hasAcknowledgedError s;
     eulaAccepted := b;
     password := password s;
     accountDetails := accountDetails s;
     customAccountDetails := customAccountDetails s;
     eulaContent := eulaContent s;
     currentPage := currentPage s;
     accountAlreadyExists := accountAlreadyExists s |}.

Definition withPassword (p : string) (s : PagerState) : PagerState :=
  {| hasAcknowledgedError := hasAcknowledgedError s;
     eulaAccepted := eulaAccepted s;
     password := p;
     accountDetails := accountDetails s;
     customAccountDetails := customAccountDetails s;
     eulaContent := eulaContent s;
     currentPage := currentPage s;
     accountAlreadyExists := accountAlreadyExists s |}.

Definition withAccountDetails
    (d : option AccountDetailInformation) (s : PagerState) : PagerState :=
  {| hasAcknowledgedError := hasAcknowledgedError s;
     eulaAccepted := eulaAccepted s;
     password := password s;
     accountDetails := d;
     customAccountDetails := customAccountDetails s;
     eulaContent := eulaContent s;
     currentPage := currentPage s;
     accountAlreadyExists := accountAlreadyExists s |}.

Definition withCustomAccountDetails
    (g : option CustomRegistrationDetailsGroup) (s : PagerState) : PagerState :=
  {| hasAcknowledgedError := hasAcknowledgedError s;
     eulaAccepted := eulaAccepted s;
     password := password s;
     accountDetails := accountDetails s;
     customAccountDetails := g;
     eulaContent := eulaContent s;
     currentPage := currentPage s;
     accountAlreadyExists := accountAlreadyExists s |}.

Definition withEulaContent (c : option string) (s : PagerState) : PagerState :=
  {| hasAcknowledgedError := hasAcknowledgedError s;
     eulaAccepted := eulaAccepted s;
     password := password s;
     accountDetails := accountDetails s;
     customAccountDetails := customAccountDetails s;
     eulaContent := c;
     currentPage := currentPage s;
     accountAlreadyExists := accountAlreadyExists s |}.

Definition withCurrentPage (i : Z) (s : PagerState) : PagerState :=
  {| hasAcknowledgedError := hasAcknowledgedError s;
     eulaAccepted := eulaAccepted s;
     password := password s;
     accountDetails := accountDetails s;
     customAccountDetails := customAccountDetails s;
     eulaContent := eulaContent s;
     currentPage := i;
     accountAlreadyExists := accountAlreadyExists s |}.

Definition withAccountAlreadyExists (b : bool) (s : PagerState) : PagerState :=
  {| hasAcknowledgedError := hasAcknowledgedError s;
     eulaAccepted := eulaAccepted s;
     password := password s;
     accountDetails := accountDetails s;
     customAccountDetails := customAccountDetails s;
     eulaContent := eulaContent s;
     currentPage := currentPage s;
     accountAlreadyExists := b |}.

Definition setHasAcknowledgedError (b : bool) : M unit :=
  modify (withHasAcknowledgedError b).
Definition setEulaAccepted (b : bool) : M unit := modify (withEulaAccepted b).
Definition setPassword (p : string) : M unit := modify (withPassword p).
Definition setAccountDetails (d : option AccountDetailInformation) : M unit :=
  modify (withAccountDetails d).
Definition setCustomAccountDetails
    (g : option CustomRegistrationDetailsGroup) : M unit :=
  modify (withCustomAccountDetails g).
Definition setEulaContent (c : option string) : M unit :=
  modify (withEulaContent c).
Definition setCurrentPage (i : Z) : M unit := modify (withCurrentPage i).
Definition setAccountAlreadyExists (b : bool) : M unit :=
  modify (withAccountAlreadyExists b).

(** [navigation.navigate(screen)] *)
Definition navigate (screen : string) : M unit :=
  perform (CallNavigate screen) (Resolved tt).

(** ** Route parameters and store selectors *)

Definition validationCode (env : Env) : string :=
  match routeParams env with
  | Some p => default "NoCodeEntered" (code p)
  | None => "NoCodeEntered"
  end.

Definition validationEmail (env : Env) : option string :=
  match routeParams env with
  | Some p => email p
  | None => None
  end.

Definition registrationIsInTransit (env : Env) : bool :=
  transitInProgress (registrationTransit (inviteRegistration (registrationState env))).

Definition hasRegistrationTransitError (env : Env) : bool :=
  match transitErrorMessage
          (registrationTransit (inviteRegistration (registrationState env))) with
  | Some _ => true
  | None => false
  end.

Definition registrationTransitErrorMessage (env : Env) : string :=
  default (t env "MESSAGES.REQUEST_ERROR")
    (transitErrorMessage
       (registrationTransit (inviteRegistration (registrationState env)))).

Definition registrationSuccess (env : Env) : bool :=
  transitSuccess (registrationTransit (inviteRegistration (registrationState env))).

Definition isValidationInTransit (env : Env) : bool :=
  transitInProgress (validationTransit (inviteRegistration (registrationState env))).

Definition validationTransitErrorMessage (env : Env) : option string :=
  transitErrorMessage (validationTransit (inviteRegistration (registrationState env))).

Definition validationSuccess (env : Env) : bool :=
  transitSuccess (validationTransit (inviteRegistration (registrationState env))).

Definition validationComplete (env : Env) : bool :=
  transitComplete (validationTransit (inviteRegistration (registrationState env))).

Definition loadEulaTransitErrorMessage (env : Env) : option string :=
  transitErrorMessage (eulaTransit (registrationState env)).

(** ** Page definitions *)

(** A [RegistrationPage] without its title and body, which only matter
    to the drawing of the screen.  Both predicates are read with [??],
    so they may be absent. *)
Record RegistrationPage : Type := {
  name : string;
  canGoForward : option bool;
  canGoBack : option bool;
}.

(** [injectedUIContext.customAccountDetails || []] *)
Definition customDetails (env : Env) : list (option PageComponent) :=
  default [] (injectedCustomAccountDetails env).

(** The custom injected pages: [customDetails.slice(1)], without its
    nulls, each mapped to a page named after its position. *)
Definition customPages (env : Env) : list RegistrationPage :=
  imap
    (fun (i : nat) (_ : PageComponent) =>
       {| name := "CustomPage" +:+ pretty (i + 1)%nat;
          canGoForward := Some true;
          canGoBack := Some true |})
    (omap id (drop 1 (customDetails env))).

Definition RegistrationPages (env : Env) (r : PagerState)
    : list RegistrationPage :=
  [ {| name := "Eula";
       canGoForward := Some (eulaAccepted r);
       canGoBack := Some false |};
    {| name := "CreatePassword";
       canGoForward := Some (0 <? String.length (password r))%nat;
       canGoBack := Some true |};
    {| name := "AccountDetails";
       canGoForward := Some (bool_decide (is_Some (accountDetails r)));
       canGoBack := Some true |} ]
  ++ customPages env
  ++ [ {| name := "Complete";
          canGoForward := Some true;
          canGoBack := Some false |} ].

(** [RegistrationPages.length] *)
Definition pageCount (env : Env) (r : PagerState) : Z :=
  Z.of_nat (length (RegistrationPages env r)).

Definition isLastStep (env : Env) (r : PagerState) : bool :=
  currentPage r =? pageCount env r - 1.

Definition isFirstStep (r : PagerState) : bool := currentPage r =? 0.

Definition CompletePage (env : Env) (r : PagerState) : Z := pageCount env r - 1.

(** Reading an array at a number: [undefined] outside of the array. *)
Definition jsIndex {A} (l : list A) (i : Z) : option A :=
  if i <? 0 then None else l !! Z.to_nat i.

(** ** Asynchronous operations *)

Definition loadAndCacheEula (env : Env) (r : PagerState) : M unit :=
  match eulaContent r with
  | None | Some EmptyString =>
      try_catch
        (eulaText ← perform (CallLoadEULA (language env))
                      (loadEULA env (language env));
         setEulaContent (Some eulaText))
        (ret tt)
  | Some _ => ret tt
  end.

Definition validateCode (env : Env) : M unit :=
  setHasAcknowledgedError false;;
  try_catch
    (registrationComplete ←
       perform
         (CallValidateUserRegistrationRequest
            (validationCode env) (validationEmail env))
         (validateUserRegistrationRequest env
            (validationCode env) (validationEmail env));
     if (registrationComplete : bool)
     then setAccountAlreadyExists true
     else ret tt)
    (ret tt).

(** [Object.keys] of an object with integer keys: ascending order. *)
Definition objectKeys (g : CustomRegistrationDetailsGroup) : list nat :=
  merge_sort Nat.le (fst <$> map_to_list g).

(** The [forEach] of [attemptRegistration]: each key's [values] is
    spread over what was gathered so far.  Reading [.values] of a
    missing entry throws. *)
Fixpoint flattenOver (g : CustomRegistrationDetailsGroup)
    (keys : list nat) (flattenedDetails : JsObject) : outcome JsObject :=
  match keys with
  | [] => Resolved flattenedDetails
  | key :: keys' =>
      match g !! key with
      | Some entry => flattenOver g keys' (spread flattenedDetails (values entry))
      | None => Rejected (TypeError "Cannot read property 'values' of undefined")
      end
  end.

Definition registrationPayload (r : PagerState) (flattenedDetails : JsObject)
    : RegistrationPayload :=
  {| payloadPassword := password r;
     payloadAccountDetails :=
       spread
         (accountDetailObject
            (default emptyAccountDetailInformation (accountDetails r)))
         flattenedDetails |}.

Definition attemptRegistration (env : Env) (r : PagerState) : M unit :=
  setHasAcknowledgedError false;;
  flattenedDetails ←
    liftOutcome
      (flattenOver (default ∅ (customAccountDetails r))
         (objectKeys (default ∅ (customAccountDetails r))) ∅);
  try_catch
    (perform
       (CallCompleteRegistration (registrationPayload r flattenedDetails)
          (validationCode env) (validationEmail env))
       (completeRegistration env (registrationPayload r flattenedDetails)
          (validationCode env) (validationEmail env)))
    (ret tt).

(** ** Effects run after a render *)

(** The cleanup returned by the first [useEffect]: on dismissal the
    registration and validation state of the store are reset. *)
Definition unmountCleanup : M unit :=
  perform (CallDispatch "registerUserReset") (Resolved tt);;
  perform (CallDispatch "validateUserRegistrationReset") (Resolved tt).

(** The effect that depends on [registrationSuccess]. *)
Definition registrationSuccessEffect (env : Env) (r : PagerState) : M unit :=
  if (currentPage r =? pageCount env r - 2) && registrationSuccess env
  then setCurrentPage (CompletePage env r)
  else ret tt.

(** The effect that validates the invitation code. *)
Definition validationEffect (env : Env) : M unit :=
  if negb (isValidationInTransit env) && negb (validationComplete env)
     && (0 <? String.length (validationCode env))%nat
  then validateCode env
  else ret tt.

(** ** Screen transition logic *)

Definition canProgress (env : Env) (r : PagerState) : M bool :=
  match jsIndex (RegistrationPages env r) (currentPage r) with
  | Some page => ret (default false (canGoForward page))
  | None => throw (TypeError "Cannot read property 'canGoForward' of undefined")
  end.

Definition canGoBackProgress (env : Env) (r : PagerState) : M bool :=
  match jsIndex (RegistrationPages env r) (currentPage r) with
  | Some page => ret (default true (canGoBack page))
  | None => throw (TypeError "Cannot read property 'canGoBack' of undefined")
  end.

(** [advancePage(delta)].  The condition of the inner [if] is a chain
    of [&&]: [canProgress()] is only evaluated when the two tests before
    it hold, and [delta > 0] only when [canProgress()] returned true. *)
Definition advancePage (env : Env) (r : PagerState) (delta : Z) : M unit :=
  if delta =? 0 then ret tt
  else if isFirstStep r && (delta <? 0) then navigate "Login"
  else if isLastStep env r && (0 <? delta) then navigate "Login"
  else
    if (currentPage r =? pageCount env r - 2) && negb (registrationSuccess env)
    then
      allowed ← canProgress env r;
      if (allowed : bool) && (0 <? delta)
      then attemptRegistration env r
      else setCurrentPage (currentPage r + delta)
    else setCurrentPage (currentPage r + delta).

Definition backLogic (env : Env) (r : PagerState) : M unit :=
  if isFirstStep r then navigate "Login"
  else
    back ← canGoBackProgress env r;
    if (back : bool) then advancePage env r (-1)
    else if isLastStep env r then navigate "Login"
    else ret tt.

(** The [onDetailsChanged] callback given to the custom page [i + 1]. *)
Definition customDetailsChanged (r : PagerState)
    (i : nat) (details : JsObject) (isValid : bool) : M unit :=
  match customAccountDetails r with
  | Some g =>
      setCustomAccountDetails
        (Some (<[(i + 1)%nat := {| values := details; valid := isValid |}]> g))
  | None =>
      setCustomAccountDetails
        (Some {[(i + 1)%nat := {| values := details; valid := isValid |}]})
  end.

(** The [onSubmit] callback given to the custom page [i + 1]: it is
    [advancePage(1)] when the page's details are valid and [undefined]
    otherwise.  Reading the entry of a null group throws during the
    render, which leaves no callback to call. *)
Definition customPageSubmit (env : Env) (r : PagerState) (i : nat) : M unit :=
  match customAccountDetails r with
  | Some g =>
      match g !! (i + 1)%nat with
      | Some entry => if valid entry then advancePage env r 1 else ret tt
      | None => ret tt
      end
  | None => ret tt
  end.

(** ** Rendering *)

(** The properties given to the error dialog. *)
Record SimpleDialogProps : Type := {
  dialogTitle : string;
  dialogBodyText : string;
  dialogVisible : bool;
}.

Definition errorDialog (env : Env) (r : PagerState) : SimpleDialogProps :=
  {| dialogTitle := t env "MESSAGES.ERROR";
     dialogBodyText := t env (registrationTransitErrorMessage env);
     dialogVisible := hasRegistrationTransitError env && negb (hasAcknowledgedError r) |}.

(** [onDismiss] of the error dialog. *)
Definition dismissErrorDialog : M unit := setHasAcknowledgedError true.

(** The spinner is shown while registration or validation is in
    progress. *)
Definition spinner (env : Env) : bool :=
  registrationIsInTransit env || isValidationInTransit env.

(** The four top-level screens, with what each one shows of the state. *)
Inductive Screen : Type :=
  | WizardScreen (showSpinner : bool) (dialog : SimpleDialogProps)
      (pages : list string) (eulaError : option string)
  | ExistingAccountScreen
  | LoadingScreen
  | ErrorStateScreen (bodyText : option string).

(** The value returned by the component. *)
Definition render (env : Env) (r : PagerState) : Screen :=
  if negb (accountAlreadyExists r) && validationSuccess env
     && negb (isValidationInTransit env)
  then WizardScreen (spinner env) (errorDialog env r)
         (name <$> RegistrationPages env r) (loadEulaTransitErrorMessage env)
  else if accountAlreadyExists r then ExistingAccountScreen
  else if negb (validationComplete env) then LoadingScreen
  else ErrorStateScreen (validationTransitErrorMessage env).

(** ** Running handlers *)

Definition runOutcome {A} (m : M A) (s : PagerState) : outcome A := (m s).1.1.
Definition runState {A} (m : M A) (s : PagerState) : PagerState := (m s).1.2.
Definition runCalls {A} (m : M A) (s : PagerState) : list Call := (m s).2.

(** The submissions of the registration among the calls made. *)
Definition isCompleteRegistration (c : Call) : bool :=
  match c with
  | CallCompleteRegistration _ _ _ => true
  | _ => false
  end.

Definition isNavigate (c : Call) : bool :=
  match c with
  | CallNavigate _ => true
  | _ => false
  end.

(** ** Events of the component's life *)

(** What can happen between two renders: a handler is called or an
    effect runs.  [EvAdvancePage] stands for any call of [advancePage];
    the buttons of the component call it with [1] and [-1]. *)
Inductive Event : Type :=
  | EvAdvancePage (delta : Z)
  | EvBackLogic
  | EvCustomPageSubmit (i : nat)
  | EvEulaChanged (accepted : bool)
  | EvPasswordChanged (p : string)
  | EvDetailsChanged (d : option AccountDetailInformation)
  | EvCustomDetailsChanged (i : nat) (details : JsObject) (isValid : bool)
  | EvDismissErrorDialog
  | EvLoadEula
  | EvRegistrationSuccessEffect
  | EvValidationEffect.

Definition handler (env : Env) (r : PagerState) (ev : Event) : M unit :=
  match ev with
  | EvAdvancePage delta => advancePage env r delta
  | EvBackLogic => backLogic env r
  | EvCustomPageSubmit i => customPageSubmit env r i
  | EvEulaChanged accepted => setEulaAccepted accepted
  | EvPasswordChanged p => setPassword p
  | EvDetailsChanged d => setAccountDetails d
  | EvCustomDetailsChanged i details isValid =>
      customDetailsChanged r i details isValid
  | EvDismissErrorDialog => dismissErrorDialog
  | EvLoadEula => loadAndCacheEula env r
  | EvRegistrationSuccessEffect => registrationSuccessEffect env r
  | EvValidationEffect => validationEffect env
  end.

(** The state of the next render after [ev] happened in the render of
    state [s]. *)
Definition handle (env : Env) (ev : Event) (s : PagerState) : PagerState :=
  runState (handler env s ev) s.

(** Events whose calls of [advancePage] move by one page at most, as
    every call in the component does. *)
Definition singleStep (ev : Event) : Prop :=
  match ev with
  | EvAdvancePage delta => -1 <= delta <= 1
  | _ => True
  end.

(** The states the component can be in.  It is mounted in its initial
    state; between renders the store snapshot, the route parameters and
    the behaviour of the network may change, but not the list of
    injected pages; and events allowed by [allowed] happen. *)
Inductive reachable (allowed : Event -> Prop) (env0 : Env)
    : Env -> PagerState -> Prop :=
  | reachable_mount : reachable allowed env0 env0 initialState
  | reachable_rerender env env' s :
      reachable allowed env0 env s ->
      injectedCustomAccountDetails env' = injectedCustomAccountDetails env ->
      reachable allowed env0 env' s
  | reachable_event env s ev :
      reachable allowed env0 env s ->
      allowed ev ->
      reachable allowed env0 env (handle env ev s).

(** The current page index is an index of the page list. *)
Definition validIndex (env : Env) (s : PagerState) : Prop :=
  0 <= currentPage s < pageCount env s.

(** ** The rendering priority in the words of the specification *)

Inductive ViewState : Type :=
  | WizardView
  | ExistingAccountView
  | LoadingView
  | ErrorView.

Definition viewOf (screen : Screen) : ViewState :=
  match screen with
  | WizardScreen _ _ _ _ => WizardView
  | ExistingAccountScreen => ExistingAccountView
  | LoadingScreen => LoadingView
  | ErrorStateScreen _ => ErrorView
  end.

(** Existing account first, then validation succeeded and not in
    flight, then validation not complete, then validation failed. *)
Definition viewByPriority
    (accountExists succeeded inFlight complete : bool) : ViewState :=
  if accountExists then ExistingAccountView
  else if succeeded && negb inFlight then WizardView
  else if negb complete then LoadingView
  else ErrorView.

(** ** The flattened custom details as a total function *)

Definition flattenedDetailsOf (g : CustomRegistrationDetailsGroup) : JsObject :=
  foldl (fun acc key => spread acc (default ∅ (values <$> g !! key)))
    ∅ (objectKeys g).

(** ** Sample surroundings *)

Definition idleTransit : TransitState :=
  {| transitInProgress := false;
     transitErrorMessage := None;
     transitSuccess := false;
     transitComplete := false |}.

Definition succeededTransit : TransitState :=
  {| transitInProgress := false;
     transitErrorMessage := None;
     transitSuccess := true;
     transitComplete := true |}.

Definition storeWith (registration validation : TransitState)
    : RegistrationUIState :=
  {| inviteRegistration :=
       {| registrationTransit := registration;
          validationTransit := validation |};
     eulaTransit := idleTransit |}.

(** Surroundings with no injected page, an unreachable network and the
    given route parameters and store. *)
Definition sampleEnv (params : option InviteRegistrationPagerParams)
    (store : RegistrationUIState) : Env :=
  {| routeParams := params;
     injectedCustomAccountDetails := None;
     registrationState := store;
     language := "en";
     t := fun key => key;
     loadEULA := fun _ => Rejected (NetworkError "offline");
     validateUserRegistrationRequest := fun _ _ => Rejected (NetworkError "offline");
     completeRegistration := fun _ _ _ => Rejected (NetworkError "offline") |}.

Definition abcParams : InviteRegistrationPagerParams :=
  {| code := Some "ABC"; email := None |}.

Definition emptyCodeParams : InviteRegistrationPagerParams :=
  {| code := Some EmptyString; email := None |}.

(** Freshly mounted with code ["ABC"]: nothing validated yet. *)
Definition mountEnv : Env := sampleEnv (Some abcParams) (storeWith idleTransit idleTransit).

(** Mounted with an empty code. *)
Definition emptyCodeEnv : Env :=
  sampleEnv (Some emptyCodeParams) (storeWith idleTransit idleTransit).

(** The code was validated and the registration has been accepted. *)
Definition registeredEnv : Env :=
  sampleEnv (Some abcParams) (storeWith succeededTransit succeededTransit).

(** The code was validated and nothing was submitted yet. *)
Definition validatedEnv : Env :=
  sampleEnv (Some abcParams) (storeWith idleTransit succeededTransit).

(** The code was validated; the account already exists. *)
Definition existingAccountEnv : Env :=
  {| routeParams := Some abcParams;
     injectedCustomAccountDetails := None;
     registrationState := storeWith idleTransit succeededTransit;
     language := "en";
     t := fun key => key;
     loadEULA := fun _ => Rejected (NetworkError "offline");
     validateUserRegistrationRequest := fun _ _ => Resolved true;
     completeRegistration := fun _ _ _ => Rejected (NetworkError "offline") |}.

(** The user filled in the first pages and stands on the last page of
    entry, here the account details. *)
Definition filledState : PagerState :=
  {| hasAcknowledgedError := false;
     eulaAccepted := true;
     password := "Secret1!";
     accountDetails := Some {| firstName := "Ada"; lastName := "Byron" |};
     customAccountDetails := Some ∅;
     eulaContent := Some "terms";
     currentPage := 2;
     accountAlreadyExists := false |}.

(** The same page with the account details left empty. *)
Definition unfilledState : PagerState := withAccountDetails None filledState.

(** Details entered on three custom pages; pages 2 and 10 both give a
    department. *)
Definition sampleCustomDetails : CustomRegistrationDetailsGroup :=
  <[10%nat := {| values := {["department" := VStr "Sales"]}; valid := true |}]>
    (<[2%nat := {| values := <["department" := VStr "Support"]>
                               {["floor" := VNum 3]};
                   valid := true |}]>
       {[1%nat := {| values := {["newsletter" := VBool true]}; valid := true |}]}).

(** Custom details entered, account details left empty. *)
Definition customOnlyState : PagerState :=
  withCustomAccountDetails (Some sampleCustomDetails) unfilledState.

(** ** What a render reads of the page list *)

(** The [pageTitle] fields of [RegistrationPages], in page order: the
    three fixed titles, the account details title for every custom page
    and the title of the Complete page. *)
Definition pageTitles (env : Env) : list string :=
  [ t env "REGISTRATION.STEPS.LICENSE";
    t env "REGISTRATION.STEPS.PASSWORD";
    t env "REGISTRATION.STEPS.ACCOUNT_DETAILS" ]
  ++ ((fun _ : RegistrationPage => t env "REGISTRATION.STEPS.ACCOUNT_DETAILS")
        <$> customPages env)
  ++ [ t env "REGISTRATION.STEPS.COMPLETE" ].

(** [pageTitle()]: the title of the header.  [title || ''] is the title
    itself for a string. *)
Definition pageTitle (env : Env) (r : PagerState) : outcome string :=
  if isValidationInTransit env then Resolved (t env "MESSAGES.LOADING")
  else if bool_decide (is_Some (validationTransitErrorMessage env))
  then Resolved (t env "MESSAGES.ERROR")
  else
    match jsIndex (pageTitles env) (currentPage r) with
    | Some title => Resolved title
    | None => Rejected (TypeError "Cannot read property 'pageTitle' of undefined")
    end.

(** The button area under the pages: one Continue button on the last
    step, otherwise a Back button, the page indicator and a Next button,
    each button with its [disabled] flag. *)
Inductive ButtonArea : Type :=
  | ContinueButton
  | BackNextButtons (backDisabled : bool) (indicatorPage totalPages : Z)
      (nextDisabled : bool).

Definition buttonArea (env : Env) (r : PagerState) : outcome ButtonArea :=
  if isLastStep env r then Resolved ContinueButton
  else
    match runOutcome (canGoBackProgress env r) r with
    | Rejected e => Rejected e
    | Resolved back =>
        match runOutcome (canProgress env r) r with
        | Rejected e => Rejected e
        | Resolved forward =>
            Resolved (BackNextButtons (negb back) (currentPage r)
                        (pageCount env r) (negb forward))
        end
    end.

(** The evaluation of the [RegistrationPages] expression during a
    render.  The bodies of the custom pages read
    [customAccountDetails[i + 1]?.values] and [?.valid]: the optional
    chain guards a missing entry, not a null group, so with a null group
    the first custom page throws while the list is built. *)
Definition buildRegistrationPages (env : Env) (r : PagerState)
    : outcome (list RegistrationPage) :=
  match customAccountDetails r, customPages env with
  | None, _ :: _ => Rejected (TypeError "Cannot read property '1' of null")
  | _, _ => Resolved (RegistrationPages env r)
  end.

(** The whole body of the component for one render: the page list is
    built, then the button area, then the screen is chosen; every screen
    but the existing-account one reads [pageTitle()] for its header.
    The result is the screen of [render] unless one of these reads
    throws. *)
Definition renderChecked (env : Env) (r : PagerState) : outcome Screen :=
  match buildRegistrationPages env r with
  | Rejected e => Rejected e
  | Resolved _ =>
      match buttonArea env r with
      | Rejected e => Rejected e
      | Resolved _ =>
          match render env r with
          | ExistingAccountScreen => Resolved ExistingAccountScreen
          | screen =>
              match pageTitle env r with
              | Rejected e => Rejected e
              | Resolved _ => Resolved screen
              end
          end
      end
  end.

(** The screen shows [message] in the error dialog, which is open. *)
Definition shownInDialog (env : Env) (r : PagerState) (message : string) : Prop :=
  match render env r with
  | WizardScreen _ dialog _ _ =>
      dialogVisible dialog = true /\ dialogBodyText dialog = t env message
  | _ => False
  end.

(** The commands sent to the view pager. *)
Inductive ViewPagerCommand : Type :=
  | SetPage (page : Z)
  | SetPageWithoutAnimation (page : Z).

(** The effect that moves the view pager; [attached] tells whether
    [viewPager.current] is set. *)
Definition viewPagerEffect (env : Env) (r : PagerState) (attached : bool)
    : list ViewPagerCommand :=
  if attached
  then
    if currentPage r =? CompletePage env r
    then [SetPageWithoutAnimation (currentPage r)]
    else [SetPage (currentPage r)]
  else [].

(** ** The account details sub-screen *)

(** The effect of [AccountDetails] that follows its two inputs: what it
    passes to [onDetailsChanged]. *)
Definition reportedDetails (firstNameInput lastNameInput : string)
    : option AccountDetailInformation :=
  if (0 <? String.length firstNameInput)%nat
     && (0 <? String.length lastNameInput)%nat
  then Some {| firstName := firstNameInput; lastName := lastNameInput |}
  else None.

(** Surroundings with injected components: the first is shown on the
    account details page, the null one is skipped and the two others
    get a page each.  The code is validated. *)
Definition customEnv : Env :=
  {| routeParams := Some abcParams;
     injectedCustomAccountDetails :=
       Some [Some "Profile"; None; Some "Company"; Some "Consent"];
     registrationState := storeWith idleTransit succeededTransit;
     language := "en";
     t := fun key => key;
     loadEULA := fun _ => Resolved "terms";
     validateUserRegistrationRequest := fun _ _ => Resolved false;
     completeRegistration := fun _ _ _ => Resolved tt |}.

(** Freshly mounted with code ["ABC"]; the validation will answer that
    the account exists. *)
Definition mountExistingEnv : Env :=
  {| routeParams := Some abcParams;
     injectedCustomAccountDetails := None;
     registrationState := storeWith idleTransit idleTransit;
     language := "en";
     t := fun key => key;
     loadEULA := fun _ => Resolved "terms";
     validateUserRegistrationRequest := fun _ _ => Resolved true;
     completeRegistration := fun _ _ _ => Resolved tt |}.

(** A transit that ended with an error message. *)
Definition failedTransit (message : string) : TransitState :=
  {| transitInProgress := false;
     transitErrorMessage := Some message;
     transitSuccess := false;
     transitComplete := true |}.

(** The validation of the code failed. *)
Definition validationFailedEnv : Env :=
  sampleEnv (Some abcParams) (storeWith idleTransit (failedTransit "Code expired")).

(** The code was validated; the EULA could not be loaded. *)
Definition eulaFailedEnv : Env :=
  {| routeParams := Some abcParams;
     injectedCustomAccountDetails := None;
     registrationState :=
       {| inviteRegistration :=
            {| registrationTransit := idleTransit;
               validationTransit := succeededTransit |};
          eulaTransit := failedTransit "No license text" |};
     language := "en";
     t := fun key => key;
     loadEULA := fun _ => Rejected (NetworkError "offline");
     validateUserRegistrationRequest := fun _ _ => Resolved false;
     completeRegistration := fun _ _ _ => Rejected (NetworkError "offline") |}.

(** The code was validated; the registration was refused. *)
Definition registrationFailedEnv : Env :=
  sampleEnv (Some abcParams)
    (storeWith (failedTransit "Registration refused") succeededTransit).

(** ** Case analysis of [advancePage] *)

(** The shape of every run of [advancePage]: it returns, and either
    nothing happens, or the wizard is left, or the registration is
    submitted, or the index moves by [delta]. *)
Inductive advanceResult (env : Env) (r s : PagerState) (delta : Z)
    : outcome unit * PagerState * list Call -> Prop :=
  | advance_noop :
      delta = 0 -> advanceResult env r s delta (Resolved tt, s, [])
  | advance_exit_first :
      currentPage r = 0 -> delta < 0 ->
      advanceResult env r s delta (Resolved tt, s, [CallNavigate "Login"])
  | advance_exit_last :
      currentPage r = pageCount env r - 1 -> 0 < delta ->
      advanceResult env r s delta (Resolved tt, s, [CallNavigate "Login"])
  | advance_register :
      currentPage r = pageCount env r - 2 -> 0 < delta ->
      registrationSuccess env = false ->
      canGoForward <$> jsIndex (RegistrationPages env r) (currentPage r)
        = Some (Some true) ->
      advanceResult env r s delta (attemptRegistration env r s)
  | advance_move :
      delta <> 0 ->
      ~ (currentPage r = 0 /\ delta < 0) ->
      ~ (currentPage r = pageCount env r - 1 /\ 0 < delta) ->
      ~ (currentPage r = pageCount env r - 2 /\ 0 < delta
         /\ registrationSuccess env = false
         /\ canGoForward <$> jsIndex (RegistrationPages env r) (currentPage r)
            = Some (Some true)) ->
      advanceResult env r s delta
        (Resolved tt, withCurrentPage (currentPage r + delta) s, []).

(** Unfolding of the monad operations. *)
Ltac unfold_monad :=
  unfold mbind, M_bind, bind, mret, M_ret, ret, throw, navigate, perform,
    setCurrentPage, setHasAcknowledgedError, setAccountAlreadyExists,
    setEulaContent, setEulaAccepted, setPassword, setAccountDetails,
    setCustomAccountDetails, modify, liftOutcome, try_catch in *.

(** * Properties *)

(** ** The page list *)

(** The page list does not depend on the state for its length: three
    fixed pages, the custom pages and the Complete page. *)
Lemma pageCount_eq env r :
  pageCount env r = 4 + Z.of_nat (length (customPages env)).
Proof.
  unfold pageCount, RegistrationPages.
  rewrite !length_app. cbn [length]. lia.
Qed.

Lemma pageCount_ge_4 env r : 4 <= pageCount env r.
Proof. rewrite pageCount_eq. lia. Qed.

Lemma pageCount_state env r r' : pageCount env r = pageCount env r'.
Proof. by rewrite !pageCount_eq. Qed.

Lemma pageCount_rerender env env' r :
  injectedCustomAccountDetails env' = injectedCustomAccountDetails env ->
  pageCount env' r = pageCount env r.
Proof.
  intros Hctx. rewrite !pageCount_eq.
  unfold customPages, customDetails. by rewrite Hctx.
Qed.

Lemma jsIndex_in_range {A} (l : list A) (i : Z) :
  0 <= i < Z.of_nat (length l) -> is_Some (jsIndex l i).
Proof.
  intros [Hlo Hhi]. unfold jsIndex.
  destruct (Z.ltb_spec i 0) as [Hneg|_]; [lia|].
  apply lookup_lt_is_Some. lia.
Qed.

(** ** The flattening of the custom details never throws *)

Lemma objectKeys_present (g : CustomRegistrationDetailsGroup) :
  Forall (fun key => is_Some (g !! key)) (objectKeys g).
Proof.
  unfold objectKeys. rewrite merge_sort_Permutation.
  apply Forall_forall. intros key Hkey.
  apply list_elem_of_fmap in Hkey as [[k entry] [-> Hin]].
  apply elem_of_map_to_list in Hin. by exists entry.
Qed.

Lemma flattenOver_present (g : CustomRegistrationDetailsGroup) keys acc :
  Forall (fun key => is_Some (g !! key)) keys ->
  flattenOver g keys acc =
  Resolved (foldl (fun acc key => spread acc (default ∅ (values <$> g !! key)))
              acc keys).
Proof.
  intros Hkeys. revert acc.
  induction Hkeys as [|key keys [entry Hentry] _ IH]; intros acc; [done|].
  cbn [flattenOver foldl]. rewrite Hentry. cbn. apply IH.
Qed.

Lemma flattenOver_objectKeys (g : CustomRegistrationDetailsGroup) :
  flattenOver g (objectKeys g) ∅ = Resolved (flattenedDetailsOf g).
Proof. apply flattenOver_present, objectKeys_present. Qed.

(** What [attemptRegistration] does, whatever the network answers. *)
Lemma attemptRegistration_run env r s :
  attemptRegistration env r s =
  (Resolved tt, withHasAcknowledgedError false s,
   [CallCompleteRegistration
      (registrationPayload r
         (flattenedDetailsOf (default ∅ (customAccountDetails r))))
      (validationCode env) (validationEmail env)]).
Proof.
  unfold attemptRegistration, mbind, M_bind, bind, liftOutcome,
    setHasAcknowledgedError, modify, try_catch, perform, ret.
  rewrite flattenOver_objectKeys.
  by destruct (completeRegistration env _ _ _) as [[]|e].
Qed.

(** ** Screen transition logic *)

Lemma canProgress_run env r s page :
  jsIndex (RegistrationPages env r) (currentPage r) = Some page ->
  canProgress env r s = (Resolved (default false (canGoForward page)), s, []).
Proof. intros Hpage. unfold canProgress. by rewrite Hpage. Qed.

Lemma canGoBackProgress_run env r s page :
  jsIndex (RegistrationPages env r) (currentPage r) = Some page ->
  canGoBackProgress env r s = (Resolved (default true (canGoBack page)), s, []).
Proof. intros Hpage. unfold canGoBackProgress. by rewrite Hpage. Qed.

Lemma advancePage_cases env r s delta :
  advanceResult env r s delta (advancePage env r delta s).
Proof.
  unfold advancePage, isFirstStep, isLastStep.
  destruct (Z.eqb_spec delta 0) as [Hzero|Hnonzero].
  { by apply advance_noop. }
  destruct (Z.eqb_spec (currentPage r) 0) as [Hfirst|Hfirst];
    destruct (Z.ltb_spec delta 0) as [Hneg|Hneg]; cbn [andb];
    try (by apply advance_exit_first).
  all: destruct (Z.eqb_spec (currentPage r) (pageCount env r - 1)) as [Hlast|Hlast];
    destruct (Z.ltb_spec 0 delta) as [Hpos|Hpos]; cbn [andb];
    try (by apply advance_exit_last); try lia.
  all: destruct (Z.eqb_spec (currentPage r) (pageCount env r - 2)) as [Hpen|Hpen];
    cbn [andb];
    try (apply advance_move; [done | lia | lia | intros (? & ? & ? & ?); lia]).
  all: destruct (registrationSuccess env) eqn:Hsuccess; cbn [negb];
    try (apply advance_move;
         [done | lia | lia | intros (? & ? & ? & ?); congruence]).
  all: pose proof (pageCount_ge_4 env r) as Hcount;
    destruct (jsIndex_in_range (RegistrationPages env r) (currentPage r))
      as [page Hpage]; [fold (pageCount env r); lia|].
  all: unfold mbind, M_bind, bind; rewrite (canProgress_run _ _ _ _ Hpage).
  all: destruct (canGoForward page) as [[|]|] eqn:Hforward;
    cbn [default from_option id andb].
  all: try (unfold setCurrentPage, modify; cbn [app];
            apply advance_move;
            [done | lia | lia
            | intros (_ & Hdelta & _ & Hgate);
              first [lia | rewrite Hpage in Hgate; cbn in Hgate; congruence]]).
  all: rewrite attemptRegistration_run; cbn [app];
    rewrite <- (attemptRegistration_run env r s);
    apply advance_register; [done | lia | done |];
    by rewrite Hpage; cbn; rewrite Hforward.
Qed.

(** C9: [advancePage(0)] is a no-op on every page: it returns, leaves
    the whole state as it is and calls nothing. *)
Theorem advancePage_zero_noop (env : Env) (r s : PagerState) :
  advancePage env r 0 s = (Resolved tt, s, [])
  /\ handle env (EvAdvancePage 0) s = s.
Proof. split; reflexivity. Qed.

(** C2: on the second-to-last page, with a positive [delta], the page's
    [canGoForward] true and the registration not yet succeeded,
    [advancePage(delta)] submits the registration exactly once (the
    single call it makes is [completeRegistration]) and leaves the
    current page index unchanged. *)
Theorem advancePage_submits_registration (env : Env) (s : PagerState) (delta : Z) :
  currentPage s = pageCount env s - 2 ->
  0 < delta ->
  canGoForward <$> jsIndex (RegistrationPages env s) (currentPage s)
    = Some (Some true) ->
  registrationSuccess env = false ->
  runOutcome (advancePage env s delta) s = Resolved tt
  /\ runCalls (advancePage env s delta) s =
       [CallCompleteRegistration
          (registrationPayload s
             (flattenedDetailsOf (default ∅ (customAccountDetails s))))
          (validationCode env) (validationEmail env)]
  /\ length (List.filter isCompleteRegistration
               (runCalls (advancePage env s delta) s)) = 1%nat
  /\ currentPage (runState (advancePage env s delta) s) = currentPage s.
Proof.
  intros Hpen Hdelta Hforward Hsuccess.
  unfold runOutcome, runCalls, runState.
  destruct (advancePage_cases env s s delta) as [Hz|Hf Hd|Hl Hd| |Hnz Hf Hl Hgate];
    try lia.
  - by rewrite attemptRegistration_run.
  - exfalso. apply Hgate. done.
Qed.

Lemma advancePage_submits_registration_witness :
  runOutcome (advancePage validatedEnv filledState 1) filledState = Resolved tt
  /\ runCalls (advancePage validatedEnv filledState 1) filledState =
       [CallCompleteRegistration
          (registrationPayload filledState
             (flattenedDetailsOf (default ∅ (customAccountDetails filledState))))
          (validationCode validatedEnv) (validationEmail validatedEnv)]
  /\ length (List.filter isCompleteRegistration
               (runCalls (advancePage validatedEnv filledState 1) filledState))
     = 1%nat
  /\ currentPage (runState (advancePage validatedEnv filledState 1) filledState)
     = currentPage filledState.
Proof.
  apply (advancePage_submits_registration validatedEnv filledState 1);
    [reflexivity | lia | reflexivity | reflexivity].
Defined.

(** C5: [advancePage] leaves the wizard exactly at the boundaries.
    With a negative [delta] on the first page, and with a positive
    [delta] on the last page, it navigates away and changes nothing;
    and it navigates away in no other case. *)
Theorem advancePage_exits_at_boundaries (env : Env) (s : PagerState) (delta : Z) :
  (currentPage s = 0 -> delta < 0 ->
   advancePage env s delta s = (Resolved tt, s, [CallNavigate "Login"]))
  /\ (currentPage s = pageCount env s - 1 -> 0 < delta ->
      advancePage env s delta s = (Resolved tt, s, [CallNavigate "Login"]))
  /\ (forall c, c ∈ runCalls (advancePage env s delta) s ->
      isNavigate c = true ->
      (currentPage s = 0 /\ delta < 0)
      \/ (currentPage s = pageCount env s - 1 /\ 0 < delta)).
Proof.
  pose proof (pageCount_ge_4 env s) as Hcount.
  split; [|split].
  - intros Hfirst Hdelta.
    destruct (advancePage_cases env s s delta)
      as [Hz|Hf Hd|Hl Hd|Hp Hd|Hnz Hf Hl Hgate]; try done; lia.
  - intros Hlast Hdelta.
    destruct (advancePage_cases env s s delta)
      as [Hz|Hf Hd|Hl Hd|Hp Hd|Hnz Hf Hl Hgate]; try done; lia.
  - intros c. unfold runCalls.
    destruct (advancePage_cases env s s delta)
      as [Hz|Hf Hd|Hl Hd|Hp Hd|Hnz Hf Hl Hgate]; cbn [snd].
    + by intros ?%elem_of_nil.
    + by left.
    + by right.
    + rewrite attemptRegistration_run. cbn [snd].
      intros ->%list_elem_of_singleton. done.
    + by intros ?%elem_of_nil.
Qed.

Lemma advancePage_exits_at_boundaries_witness :
  advancePage validatedEnv initialState (-1) initialState
    = (Resolved tt, initialState, [CallNavigate "Login"])
  /\ advancePage validatedEnv (withCurrentPage 3 filledState) 1
       (withCurrentPage 3 filledState)
    = (Resolved tt, withCurrentPage 3 filledState, [CallNavigate "Login"])
  /\ ((currentPage initialState = 0 /\ -1 < 0)
      \/ (currentPage initialState = pageCount validatedEnv initialState - 1
          /\ 0 < -1)).
Proof.
  split; [|split]; [| |
    apply (proj2 (proj2 (advancePage_exits_at_boundaries
                           validatedEnv initialState (-1)))
             (CallNavigate "Login"));
      [apply list_elem_of_here | reflexivity] ].
  - apply (proj1 (advancePage_exits_at_boundaries validatedEnv initialState (-1)));
      [reflexivity | lia].
  - apply (proj1 (proj2 (advancePage_exits_at_boundaries validatedEnv
                           (withCurrentPage 3 filledState) 1)));
      [reflexivity | lia].
Defined.

(** C7: forward navigation is gated by [canGoForward] in the
    registration branch only.  On every page but the last, when the
    conditions of the registration branch do not all hold,
    [advancePage(1)] increments the index, also when the page's
    [canGoForward] is false; on the second-to-last page with
    [canGoForward] false it moves to the Complete page and submits
    nothing. *)
Theorem advancePage_forward_not_gated (env : Env) (s : PagerState) :
  (0 <= currentPage s < pageCount env s - 1 ->
   ~ (currentPage s = pageCount env s - 2
      /\ registrationSuccess env = false
      /\ canGoForward <$> jsIndex (RegistrationPages env s) (currentPage s)
         = Some (Some true)) ->
   advancePage env s 1 s
     = (Resolved tt, withCurrentPage (currentPage s + 1) s, []))
  /\ (0 <= currentPage s < pageCount env s - 1 ->
      canGoForward <$> jsIndex (RegistrationPages env s) (currentPage s)
        = Some (Some false) ->
      advancePage env s 1 s
        = (Resolved tt, withCurrentPage (currentPage s + 1) s, []))
  /\ (currentPage s = pageCount env s - 2 ->
      canGoForward <$> jsIndex (RegistrationPages env s) (currentPage s)
        = Some (Some false) ->
      advancePage env s 1 s
        = (Resolved tt, withCurrentPage (CompletePage env s) s, [])).
Proof.
  pose proof (pageCount_ge_4 env s) as Hcount.
  assert (Hmove :
    0 <= currentPage s < pageCount env s - 1 ->
    ~ (currentPage s = pageCount env s - 2
       /\ registrationSuccess env = false
       /\ canGoForward <$> jsIndex (RegistrationPages env s) (currentPage s)
          = Some (Some true)) ->
    advancePage env s 1 s
      = (Resolved tt, withCurrentPage (currentPage s + 1) s, [])).
  { intros Hrange Hgate.
    destruct (advancePage_cases env s s 1)
      as [Hz|Hf Hd|Hl Hd|Hp Hd Hs Hfw|Hnz Hf Hl _]; try done; try lia.
    exfalso. apply Hgate. done. }
  split; [exact Hmove|split].
  - intros Hrange Hforward. apply Hmove; [done|].
    intros (_ & _ & Htrue). congruence.
  - intros Hpen Hforward. unfold CompletePage.
    replace (pageCount env s - 1) with (currentPage s + 1) by lia.
    apply Hmove; [lia|]. intros (_ & _ & Htrue). congruence.
Qed.

Lemma advancePage_forward_not_gated_witness :
  advancePage validatedEnv unfilledState 1 unfilledState
    = (Resolved tt, withCurrentPage 3 unfilledState, [])
  /\ advancePage registeredEnv (withCurrentPage 1 unfilledState) 1
       (withCurrentPage 1 unfilledState)
     = (Resolved tt, withCurrentPage 2 unfilledState, []).
Proof.
  split.
  - apply (proj2 (proj2 (advancePage_forward_not_gated validatedEnv unfilledState)));
      reflexivity.
  - apply (proj1 (advancePage_forward_not_gated registeredEnv
                    (withCurrentPage 1 unfilledState))).
    + vm_compute. split; [discriminate | reflexivity].
    + intros [Hpen _]. discriminate Hpen.
Defined.

(** ** The jump to the Complete page *)

(** C1, as the code has it: when the registration has succeeded and the
    current page is the second-to-last, the effect sets the index to the
    last index (the Complete page); from every other page it leaves the
    index, and the rest of the state, unchanged. *)
Theorem registrationSuccess_jumps_from_last_entry_page (env : Env) (s : PagerState) :
  registrationSuccess env = true ->
  (currentPage s = pageCount env s - 2 ->
   registrationSuccessEffect env s s
     = (Resolved tt, withCurrentPage (pageCount env s - 1) s, []))
  /\ (currentPage s <> pageCount env s - 2 ->
      registrationSuccessEffect env s s = (Resolved tt, s, [])).
Proof.
  intros Hsuccess. unfold registrationSuccessEffect, CompletePage.
  rewrite Hsuccess, andb_true_r.
  destruct (Z.eqb_spec (currentPage s) (pageCount env s - 2)); by split.
Qed.

Lemma registrationSuccess_jumps_from_last_entry_page_witness :
  registrationSuccess registeredEnv = true
  /\ registrationSuccessEffect registeredEnv filledState filledState
     = (Resolved tt, withCurrentPage 3 filledState, []).
Proof.
  split; [reflexivity|].
  apply (proj1 (registrationSuccess_jumps_from_last_entry_page
                  registeredEnv filledState eq_refl)).
  reflexivity.
Defined.

(** C1, as stated, fails: with the registration succeeded and the
    index at 0 (of four pages), the effect leaves the index at 0; the
    last index is 3. *)
Lemma registrationSuccess_jump_counterexample :
  registrationSuccess registeredEnv = true
  /\ currentPage initialState = 0
  /\ CompletePage registeredEnv initialState = 3
  /\ currentPage (handle registeredEnv EvRegistrationSuccessEffect initialState) = 0
  /\ ~ (forall env s,
         registrationSuccess env = true ->
         currentPage (handle env EvRegistrationSuccessEffect s)
           = CompletePage env s).
Proof.
  repeat split; try reflexivity.
  intros Hclaim.
  specialize (Hclaim registeredEnv initialState eq_refl).
  vm_compute in Hclaim. discriminate Hclaim.
Qed.

(** ** The current page index stays an index of the page list *)

Lemma validIndex_currentPage env s s' :
  currentPage s' = currentPage s -> validIndex env s -> validIndex env s'.
Proof.
  unfold validIndex. intros ->. by rewrite (pageCount_state env s' s).
Qed.

Lemma validIndex_rerender env env' s :
  injectedCustomAccountDetails env' = injectedCustomAccountDetails env ->
  validIndex env s -> validIndex env' s.
Proof.
  unfold validIndex. intros Hctx.
  by rewrite (pageCount_rerender env env' s Hctx).
Qed.

Lemma validIndex_withCurrentPage env s i :
  0 <= i < pageCount env s -> validIndex env (withCurrentPage i s).
Proof.
  unfold validIndex. by rewrite (pageCount_state env (withCurrentPage i s) s).
Qed.

Lemma advancePage_validIndex env s delta :
  -1 <= delta <= 1 ->
  validIndex env s -> validIndex env (runState (advancePage env s delta) s).
Proof.
  intros Hdelta Hvalid. unfold runState.
  destruct (advancePage_cases env s s delta)
    as [Hz|Hf Hd|Hl Hd|Hp Hd Hs Hfw|Hnz Hf Hl _]; cbn [fst snd]; try done.
  - rewrite attemptRegistration_run. cbn [fst snd].
    by apply (validIndex_currentPage env s).
  - apply validIndex_withCurrentPage. unfold validIndex in Hvalid. lia.
Qed.

Lemma backLogic_validIndex env s :
  validIndex env s -> validIndex env (runState (backLogic env s) s).
Proof.
  intros Hvalid. unfold runState, backLogic.
  destruct (isFirstStep s); [done|].
  destruct (jsIndex_in_range (RegistrationPages env s) (currentPage s))
    as [page Hpage]; [exact Hvalid|].
  unfold mbind, M_bind, bind. rewrite (canGoBackProgress_run _ _ _ _ Hpage).
  destruct (default true (canGoBack page)).
  - pose proof (advancePage_validIndex env s (-1) ltac:(lia) Hvalid) as Hback.
    unfold runState in Hback.
    by destruct (advancePage env s (-1) s) as [[o s'] calls].
  - by destruct (isLastStep env s).
Qed.

Lemma customPageSubmit_validIndex env s i :
  validIndex env s -> validIndex env (runState (customPageSubmit env s i) s).
Proof.
  intros Hvalid. unfold customPageSubmit.
  destruct (customAccountDetails s) as [g|]; [|done].
  destruct (g !! (i + 1)%nat) as [entry|]; [|done].
  destruct (valid entry); [|done].
  by apply advancePage_validIndex; [lia|].
Qed.

Lemma loadAndCacheEula_currentPage env r s :
  currentPage (runState (loadAndCacheEula env r) s) = currentPage s.
Proof.
  unfold runState, loadAndCacheEula.
  destruct (eulaContent r) as [[|c content]|]; unfold_monad;
    try done; by destruct (loadEULA env (language env)).
Qed.

Lemma validateCode_currentPage env s :
  currentPage (runState (validateCode env) s) = currentPage s.
Proof.
  unfold runState, validateCode. unfold_monad.
  by destruct (validateUserRegistrationRequest env _ _) as [[|]|e].
Qed.

(** Every event whose [advancePage] calls move by one page at most
    keeps the index valid. *)
Lemma handle_validIndex env ev s :
  singleStep ev -> validIndex env s -> validIndex env (handle env ev s).
Proof.
  intros Hstep Hvalid. unfold handle.
  destruct ev as [delta| |i|b|p|d|i details v| | | |]; cbn [handler singleStep] in *.
  - by apply advancePage_validIndex.
  - by apply backLogic_validIndex.
  - by apply customPageSubmit_validIndex.
  - by apply (validIndex_currentPage env s).
  - by apply (validIndex_currentPage env s).
  - by apply (validIndex_currentPage env s).
  - apply (validIndex_currentPage env s); [|done].
    unfold customDetailsChanged. by destruct (customAccountDetails s).
  - by apply (validIndex_currentPage env s).
  - apply (validIndex_currentPage env s); [|done].
    apply loadAndCacheEula_currentPage.
  - unfold runState, registrationSuccessEffect.
    destruct ((currentPage s =? pageCount env s - 2) && registrationSuccess env);
      [|done].
    apply validIndex_withCurrentPage. unfold CompletePage.
    pose proof (pageCount_ge_4 env s). lia.
  - unfold validationEffect.
    destruct (negb (isValidationInTransit env) && negb (validationComplete env)
              && (0 <? String.length (validationCode env))%nat); [|done].
    apply (validIndex_currentPage env s); [|done].
    apply validateCode_currentPage.
Qed.

(** C3, as the code has it: starting from the initial index 0, the
    current page index stays a valid index of the page list through
    every event of the component (handlers, the hardware back button,
    the registration-success jump, the effects and re-renders), the
    calls of [advancePage] having [delta] in [-1, 0, 1] as all of the
    component's own calls have. *)
Theorem currentPage_always_valid (env0 env : Env) (s : PagerState) :
  reachable singleStep env0 env s -> validIndex env s.
Proof.
  induction 1 as [|env env' s _ IH Hctx|env s ev _ IH Hstep].
  - unfold validIndex. pose proof (pageCount_ge_4 env0 initialState).
    cbn [currentPage initialState]. lia.
  - by apply (validIndex_rerender env).
  - by apply handle_validIndex.
Qed.

Lemma currentPage_always_valid_witness :
  validIndex registeredEnv
    (handle registeredEnv EvRegistrationSuccessEffect
       (handle validatedEnv (EvAdvancePage 1)
          (handle validatedEnv (EvAdvancePage 1)
             (handle validatedEnv (EvAdvancePage (-1))
                (handle validatedEnv (EvAdvancePage 1) initialState))))).
Proof.
  apply (currentPage_always_valid validatedEnv).
  apply reachable_event; [|exact I].
  apply (reachable_rerender _ _ validatedEnv); [|reflexivity].
  do 4 (apply reachable_event; [|cbn; lia]).
  apply reachable_mount.
Defined.

(** C3, as stated, fails for the other integers: from the initial index
    0 of four pages, [advancePage(4)] sets the index to 4. *)
Lemma currentPage_valid_counterexample :
  validIndex validatedEnv initialState
  /\ pageCount validatedEnv initialState = 4
  /\ currentPage (handle validatedEnv (EvAdvancePage 4) initialState) = 4
  /\ ~ validIndex validatedEnv (handle validatedEnv (EvAdvancePage 4) initialState)
  /\ ~ (forall env s delta,
         validIndex env s -> validIndex env (handle env (EvAdvancePage delta) s)).
Proof.
  assert (Hinit : validIndex validatedEnv initialState).
  { unfold validIndex. vm_compute. split; [discriminate | reflexivity]. }
  assert (Hout : ~ validIndex validatedEnv
                     (handle validatedEnv (EvAdvancePage 4) initialState)).
  { unfold validIndex. vm_compute. intros [_ Hlt]. discriminate Hlt. }
  repeat split; try reflexivity; try exact Hout; try apply Hinit.
  intros Hclaim. apply Hout, Hclaim, Hinit.
Qed.

(** ** Rendering branches *)

(** C4: the render selects one of the four screens by the priority
    existing account, then validation succeeded and not in flight (the
    wizard), then validation not complete (loading), then validation
    failed (the error state).  Whenever [accountAlreadyExists] is true
    the existing-account screen is rendered, never the wizard; and
    [accountAlreadyExists] is what [validateCode] sets when the
    validation answers that the account exists. *)
Theorem render_selects_by_priority (env : Env) (s : PagerState) :
  viewOf (render env s)
    = viewByPriority (accountAlreadyExists s) (validationSuccess env)
        (isValidationInTransit env) (validationComplete env)
  /\ (accountAlreadyExists s = true -> render env s = ExistingAccountScreen)
  /\ (forall envAtCall,
       validateUserRegistrationRequest envAtCall
         (validationCode envAtCall) (validationEmail envAtCall) = Resolved true ->
       render env (runState (validateCode envAtCall) s) = ExistingAccountScreen).
Proof.
  split; [|split].
  - unfold render, viewByPriority.
    by destruct (accountAlreadyExists s), (validationSuccess env),
      (isValidationInTransit env), (validationComplete env).
  - intros Hexists. unfold render. by rewrite Hexists.
  - intros envAtCall Hanswer.
    unfold runState, validateCode. unfold_monad. by rewrite Hanswer.
Qed.

Lemma render_selects_by_priority_witness :
  render existingAccountEnv (withAccountAlreadyExists true initialState)
    = ExistingAccountScreen
  /\ render existingAccountEnv
       (runState (validateCode existingAccountEnv) initialState)
     = ExistingAccountScreen.
Proof.
  split.
  - apply (proj1 (proj2 (render_selects_by_priority existingAccountEnv
                           (withAccountAlreadyExists true initialState)))).
    reflexivity.
  - apply (proj2 (proj2 (render_selects_by_priority existingAccountEnv
                           initialState)) existingAccountEnv).
    reflexivity.
Defined.

(** ** Validation of the invitation code *)

(** C6, as the code has it: when validation is neither in flight nor
    complete and the code is not the empty string, the effect calls the
    validation exactly once, with the code and the email of the route
    parameters (code ["ABC"] and no email give [("ABC", undefined)]; an
    absent code gives the sentinel ["NoCodeEntered"]); it does nothing
    when validation is in flight, or complete, or the code is the empty
    string. *)
Theorem validationEffect_validates_once (env : Env) (s : PagerState) :
  (isValidationInTransit env = false ->
   validationComplete env = false ->
   validationCode env <> EmptyString ->
   runOutcome (validationEffect env) s = Resolved tt
   /\ runCalls (validationEffect env) s =
        [CallValidateUserRegistrationRequest
           (validationCode env) (validationEmail env)])
  /\ (isValidationInTransit env = true \/ validationComplete env = true
      \/ validationCode env = EmptyString ->
      validationEffect env s = (Resolved tt, s, []))
  /\ (routeParams env = Some {| code := Some "ABC"; email := None |} ->
      validationCode env = "ABC" /\ validationEmail env = None)
  /\ (routeParams env = None \/ (exists p, routeParams env = Some p /\ code p = None) ->
      validationCode env = "NoCodeEntered").
Proof.
  split; [|split; [|split]].
  - intros Hflight Hcomplete Hcode. unfold validationEffect.
    rewrite Hflight, Hcomplete. cbn [negb andb].
    destruct (validationCode env) as [|c rest] eqn:Hc; [done|]. cbn [String.length].
    replace (0 <? S (String.length rest))%nat with true
      by (symmetry; apply Nat.ltb_lt; lia).
    unfold runOutcome, runCalls, validateCode. unfold_monad. rewrite Hc.
    by destruct (validateUserRegistrationRequest env _ _) as [[|]|e].
  - unfold validationEffect. intros [->| [->| ->]]; cbn [negb andb]; try done.
    + by rewrite andb_false_r.
    + by rewrite andb_false_r.
  - unfold validationCode, validationEmail. by intros ->.
  - unfold validationCode. intros [->|(p & -> & ->)]; done.
Qed.

Lemma validationEffect_validates_once_witness :
  (runOutcome (validationEffect mountEnv) initialState = Resolved tt
   /\ runCalls (validationEffect mountEnv) initialState =
        [CallValidateUserRegistrationRequest "ABC" None])
  /\ validationEffect validatedEnv initialState = (Resolved tt, initialState, [])
  /\ validationCode (sampleEnv None (storeWith idleTransit idleTransit))
     = "NoCodeEntered".
Proof.
  split; [|split].
  - apply (proj1 (validationEffect_validates_once mountEnv initialState));
      [reflexivity | reflexivity | discriminate].
  - apply (proj1 (proj2 (validationEffect_validates_once validatedEnv initialState))).
    right. left. reflexivity.
  - apply (proj2 (proj2 (proj2 (validationEffect_validates_once
                                  (sampleEnv None (storeWith idleTransit idleTransit))
                                  initialState)))).
    left. reflexivity.
Defined.

(** C6, as stated, fails for the empty code: mounted with code [""],
    validation neither in flight nor complete, nothing is called. *)
Lemma validationEffect_counterexample :
  isValidationInTransit emptyCodeEnv = false
  /\ validationComplete emptyCodeEnv = false
  /\ validationCode emptyCodeEnv = EmptyString
  /\ runCalls (validationEffect emptyCodeEnv) initialState = []
  /\ ~ (forall env s,
         isValidationInTransit env = false ->
         validationComplete env = false ->
         runCalls (validationEffect env) s =
           [CallValidateUserRegistrationRequest
              (validationCode env) (validationEmail env)]).
Proof.
  repeat split; try reflexivity.
  intros Hclaim.
  specialize (Hclaim emptyCodeEnv initialState eq_refl eq_refl).
  vm_compute in Hclaim. discriminate Hclaim.
Qed.

(** ** Failures of the network calls *)

Lemma validateCode_rejected env s e :
  validateUserRegistrationRequest env (validationCode env) (validationEmail env)
    = Rejected e ->
  validateCode env s =
  (Resolved tt, withHasAcknowledgedError false s,
   [CallValidateUserRegistrationRequest (validationCode env) (validationEmail env)]).
Proof. intros Hfail. unfold validateCode. unfold_monad. by rewrite Hfail. Qed.

Lemma loadAndCacheEula_returns env r s :
  runOutcome (loadAndCacheEula env r) s = Resolved tt.
Proof.
  unfold runOutcome, loadAndCacheEula.
  destruct (eulaContent r) as [[|c content]|]; unfold_monad;
    try done; by destruct (loadEULA env (language env)).
Qed.

Lemma render_reads_store_only env env' s :
  registrationState env' = registrationState env ->
  t env' = t env ->
  injectedCustomAccountDetails env' = injectedCustomAccountDetails env ->
  render env' s = render env s.
Proof.
  intros Hstore Ht Hctx.
  unfold render, errorDialog, spinner, registrationTransitErrorMessage,
    hasRegistrationTransitError, registrationIsInTransit, isValidationInTransit,
    validationSuccess, validationComplete, validationTransitErrorMessage,
    loadEulaTransitErrorMessage, RegistrationPages, customPages, customDetails.
  by rewrite Hstore, Ht, Hctx.
Qed.

(** C8, as the code has it: [validateCode], [attemptRegistration] and
    [loadAndCacheEula] return normally whatever the network call does;
    when the call fails, the state they leave does not depend on the
    failure, which is dropped.  What the screen shows of an error comes
    from the transit error messages of the store only, each in its own
    place: the registration error in the dismissible dialog of the wizard
    screen (visible while the message is not acknowledged, hidden by
    dismissing it), the validation error as the body of the full-screen
    error state, and the EULA error as the [eulaError] of the Eula page.
    The rendered screen does not depend on the answers of the network
    calls. *)
Theorem async_failures_are_caught (env : Env) (r s : PagerState) :
  (runOutcome (validateCode env) s = Resolved tt
   /\ runOutcome (attemptRegistration env r) s = Resolved tt
   /\ runOutcome (loadAndCacheEula env r) s = Resolved tt)
  /\ (forall e,
       validateUserRegistrationRequest env (validationCode env) (validationEmail env)
         = Rejected e ->
       runState (validateCode env) s = withHasAcknowledgedError false s)
  /\ (forall e,
       completeRegistration env
         (registrationPayload r
            (flattenedDetailsOf (default ∅ (customAccountDetails r))))
         (validationCode env) (validationEmail env) = Rejected e ->
       runState (attemptRegistration env r) s = withHasAcknowledgedError false s)
  /\ (forall e,
       loadEULA env (language env) = Rejected e ->
       runState (loadAndCacheEula env r) s = s)
  /\ dialogVisible (errorDialog env s)
     = bool_decide
         (is_Some (transitErrorMessage
                     (registrationTransit (inviteRegistration (registrationState env)))))
       && negb (hasAcknowledgedError s)
  /\ dialogBodyText (errorDialog env s)
     = t env (default (t env "MESSAGES.REQUEST_ERROR")
                (transitErrorMessage
                   (registrationTransit (inviteRegistration (registrationState env)))))
  /\ dialogVisible (errorDialog env (runState dismissErrorDialog s)) = false
  /\ (forall env',
       registrationState env' = registrationState env ->
       t env' = t env ->
       injectedCustomAccountDetails env' = injectedCustomAccountDetails env ->
       render env' s = render env s)
  /\ (accountAlreadyExists s = false ->
      validationSuccess env = true ->
      isValidationInTransit env = false ->
      render env s
        = WizardScreen (spinner env) (errorDialog env s)
            (name <$> RegistrationPages env s)
            (transitErrorMessage (eulaTransit (registrationState env))))
  /\ (accountAlreadyExists s = false ->
      validationSuccess env = false \/ isValidationInTransit env = true ->
      validationComplete env = true ->
      render env s
        = ErrorStateScreen
            (transitErrorMessage
               (validationTransit (inviteRegistration (registrationState env)))))
  /\ (forall message,
       transitErrorMessage
         (registrationTransit (inviteRegistration (registrationState env)))
         = Some message ->
       accountAlreadyExists s = false ->
       validationSuccess env = true ->
       isValidationInTransit env = false ->
       hasAcknowledgedError s = false ->
       shownInDialog env s message
       /\ ~ shownInDialog env (runState dismissErrorDialog s) message).
Proof.
  repeat apply conj.
  - unfold runOutcome, validateCode. unfold_monad.
    by destruct (validateUserRegistrationRequest env _ _) as [[|]|e].
  - unfold runOutcome. by rewrite attemptRegistration_run.
  - apply loadAndCacheEula_returns.
  - intros e Hfail. unfold runState. by rewrite (validateCode_rejected _ _ _ Hfail).
  - intros e _. unfold runState. by rewrite attemptRegistration_run.
  - intros e Hfail. unfold runState, loadAndCacheEula.
    destruct (eulaContent r) as [[|c content]|]; unfold_monad;
      try done; by rewrite Hfail.
  - unfold errorDialog, hasRegistrationTransitError. cbn [dialogVisible].
    by destruct (transitErrorMessage _).
  - reflexivity.
  - unfold errorDialog. cbn. apply andb_false_r.
  - intros env'. apply render_reads_store_only.
  - intros Hnew Hsuccess Hflight. unfold render.
    by rewrite Hnew, Hsuccess, Hflight.
  - intros Hnew Hfailed Hcomplete. unfold render. rewrite Hnew, Hcomplete.
    destruct Hfailed as [->| ->]; cbn [negb andb]; [done|].
    by rewrite andb_false_r.
  - intros message Hmessage Hnew Hsuccess Hflight Hack.
    unfold shownInDialog, render. cbn [accountAlreadyExists runState].
    unfold dismissErrorDialog, setHasAcknowledgedError, modify. cbn [fst snd].
    cbn [accountAlreadyExists withHasAcknowledgedError].
    rewrite Hnew, Hsuccess, Hflight. cbn [negb andb].
    unfold errorDialog, hasRegistrationTransitError, registrationTransitErrorMessage.
    cbn [dialogVisible dialogBodyText hasAcknowledgedError withHasAcknowledgedError].
    rewrite Hmessage, Hack. cbn. rewrite Hnew. cbn.
    split; [done|]. intros [Hvisible _]. discriminate Hvisible.
Qed.

Lemma async_failures_are_caught_witness :
  runState (validateCode mountEnv) filledState
    = withHasAcknowledgedError false filledState
  /\ runState (attemptRegistration validatedEnv filledState) filledState
     = withHasAcknowledgedError false filledState
  /\ runState (loadAndCacheEula mountEnv initialState) initialState = initialState
  /\ render registeredEnv filledState
     = render (sampleEnv None (storeWith succeededTransit succeededTransit))
         filledState
  /\ render eulaFailedEnv initialState
     = WizardScreen false (errorDialog eulaFailedEnv initialState)
         ["Eula"; "CreatePassword"; "AccountDetails"; "Complete"]
         (Some "No license text")
  /\ render validationFailedEnv initialState
     = ErrorStateScreen (Some "Code expired")
  /\ shownInDialog registrationFailedEnv filledState "Registration refused"
  /\ ~ shownInDialog registrationFailedEnv
        (runState dismissErrorDialog filledState) "Registration refused".
Proof.
  pose proof (async_failures_are_caught mountEnv initialState filledState)
    as (_ & Hvalidate & _).
  pose proof (async_failures_are_caught validatedEnv filledState filledState)
    as (_ & _ & Hregister & _).
  pose proof (async_failures_are_caught mountEnv initialState initialState)
    as (_ & _ & _ & Heula & _).
  pose proof (async_failures_are_caught
                (sampleEnv None (storeWith succeededTransit succeededTransit))
                filledState filledState)
    as (_ & _ & _ & _ & _ & _ & _ & Hrender & _).
  pose proof (async_failures_are_caught eulaFailedEnv initialState initialState)
    as (_ & _ & _ & _ & _ & _ & _ & _ & Hwizard & _).
  pose proof (async_failures_are_caught validationFailedEnv initialState initialState)
    as (_ & _ & _ & _ & _ & _ & _ & _ & _ & Herror & _).
  pose proof (async_failures_are_caught registrationFailedEnv filledState filledState)
    as (_ & _ & _ & _ & _ & _ & _ & _ & _ & _ & Hdialog).
  split; [|split; [|split; [|split; [|split; [|split; [|split]]]]]].
  - apply (Hvalidate (NetworkError "offline")). reflexivity.
  - apply (Hregister (NetworkError "offline")). reflexivity.
  - apply (Heula (NetworkError "offline")). reflexivity.
  - apply Hrender; reflexivity.
  - apply Hwizard; reflexivity.
  - apply Herror; [reflexivity | left; reflexivity | reflexivity].
  - apply (proj1 (Hdialog "Registration refused"
                    eq_refl eq_refl eq_refl eq_refl eq_refl)).
  - apply (proj2 (Hdialog "Registration refused"
                    eq_refl eq_refl eq_refl eq_refl eq_refl)).
Defined.

(** C8, as stated, fails for the validation and for the EULA: their
    errors are not shown by the dialog.  With a failed validation the
    screen is the full-screen error state carrying the message, and with
    a failed EULA load the message is the [eulaError] of the wizard
    screen while the dialog stays closed. *)
Lemma async_errors_dialog_counterexample :
  transitErrorMessage
    (validationTransit (inviteRegistration (registrationState validationFailedEnv)))
    = Some "Code expired"
  /\ render validationFailedEnv initialState
     = ErrorStateScreen (Some "Code expired")
  /\ ~ shownInDialog validationFailedEnv initialState "Code expired"
  /\ transitErrorMessage (eulaTransit (registrationState eulaFailedEnv))
     = Some "No license text"
  /\ render eulaFailedEnv initialState
     = WizardScreen false
         {| dialogTitle := "MESSAGES.ERROR";
            dialogBodyText := "MESSAGES.REQUEST_ERROR";
            dialogVisible := false |}
         ["Eula"; "CreatePassword"; "AccountDetails"; "Complete"]
         (Some "No license text")
  /\ ~ shownInDialog eulaFailedEnv initialState "No license text"
  /\ ~ (forall env s message,
         hasAcknowledgedError s = false ->
         transitErrorMessage
           (registrationTransit (inviteRegistration (registrationState env)))
           = Some message
         \/ transitErrorMessage
              (validationTransit (inviteRegistration (registrationState env)))
            = Some message
         \/ transitErrorMessage (eulaTransit (registrationState env))
            = Some message ->
         shownInDialog env s message).
Proof.
  assert (Hvalidation :
    ~ shownInDialog validationFailedEnv initialState "Code expired").
  { unfold shownInDialog. vm_compute. done. }
  assert (Heula : ~ shownInDialog eulaFailedEnv initialState "No license text").
  { unfold shownInDialog. vm_compute. intros [Hvisible _]. discriminate Hvisible. }
  repeat apply conj; try reflexivity; try done.
  intros Hclaim. apply Hvalidation.
  apply Hclaim; [reflexivity|]. right. left. reflexivity.
Qed.

(** ** Registration with empty account details *)

(** C10: called while [accountDetails] is null, [attemptRegistration]
    does not fail: it submits once, with the password, the empty
    defaults (first and last name the empty string) over which the
    flattened custom details of the pages are spread. *)
Theorem attemptRegistration_null_accountDetails (env : Env) (r s : PagerState) :
  accountDetails r = None ->
  attemptRegistration env r s =
  (Resolved tt, withHasAcknowledgedError false s,
   [CallCompleteRegistration
      {| payloadPassword := password r;
         payloadAccountDetails :=
           spread
             (<["firstName" := VStr EmptyString]>
                (<["lastName" := VStr EmptyString]> ∅))
             (flattenedDetailsOf (default ∅ (customAccountDetails r))) |}
      (validationCode env) (validationEmail env)]).
Proof.
  intros Hnull. rewrite attemptRegistration_run.
  unfold registrationPayload. by rewrite Hnull.
Qed.

Lemma attemptRegistration_null_accountDetails_witness :
  accountDetails customOnlyState = None
  /\ objectKeys sampleCustomDetails = [1; 2; 10]%nat
  /\ attemptRegistration validatedEnv customOnlyState customOnlyState =
     (Resolved tt, customOnlyState,
      [CallCompleteRegistration
         {| payloadPassword := "Secret1!";
            payloadAccountDetails :=
              <["firstName" := VStr EmptyString]>
                (<["lastName" := VStr EmptyString]>
                   (<["newsletter" := VBool true]>
                      (<["floor" := VNum 3]>
                         {["department" := VStr "Sales"]}))) |}
         "ABC" None]).
Proof.
  split; [reflexivity|]. split; [vm_compute; reflexivity|].
  rewrite (attemptRegistration_null_accountDetails validatedEnv
             customOnlyState customOnlyState eq_refl).
  vm_compute. reflexivity.
Defined.

(** * Further properties of the pager *)

(** ** The pages one by one *)

Lemma customPages_lookup env i page :
  customPages env !! i = Some page ->
  page = {| name := "CustomPage" +:+ pretty (i + 1)%nat;
            canGoForward := Some true;
            canGoBack := Some true |}.
Proof.
  unfold customPages. rewrite list_lookup_imap.
  destruct (omap id (drop 1 (customDetails env)) !! i); cbn; congruence.
Qed.

(** The page found at an index of the list. *)
Lemma RegistrationPages_lookup env r (i : nat) page :
  RegistrationPages env r !! i = Some page ->
  (i = 0%nat /\ page = {| name := "Eula";
                          canGoForward := Some (eulaAccepted r);
                          canGoBack := Some false |})
  \/ (i = 1%nat /\ page = {| name := "CreatePassword";
                             canGoForward := Some (0 <? String.length (password r))%nat;
                             canGoBack := Some true |})
  \/ (i = 2%nat /\ page = {| name := "AccountDetails";
                             canGoForward := Some (bool_decide (is_Some (accountDetails r)));
                             canGoBack := Some true |})
  \/ ((3 <= i < 3 + length (customPages env))%nat
      /\ page = {| name := "CustomPage" +:+ pretty (i - 2)%nat;
                   canGoForward := Some true;
                   canGoBack := Some true |})
  \/ (i = (3 + length (customPages env))%nat
      /\ page = {| name := "Complete";
                   canGoForward := Some true;
                   canGoBack := Some false |}).
Proof.
  unfold RegistrationPages.
  destruct i as [|[|[|i]]]; cbn [lookup list_lookup app].
  - intros [= <-]. by left.
  - intros [= <-]. right. by left.
  - intros [= <-]. right. right. by left.
  - intros Hpage.
    change ((customPages env ++
               [{| name := "Complete"; canGoForward := Some true;
                   canGoBack := Some false |}]) !! i = Some page) in Hpage.
    apply lookup_app_Some in Hpage as [Hcustom|[Hlen Hlast]].
    + right. right. right. left. split.
      * apply lookup_lt_Some in Hcustom. lia.
      * apply customPages_lookup in Hcustom.
        by replace (S (S (S i)) - 2)%nat with (i + 1)%nat by lia.
    + right. right. right. right.
      destruct (i - length (customPages env))%nat as [|k] eqn:Hk; [|done].
      cbn in Hlast. injection Hlast as <-. split; [lia|done].
Qed.

Lemma pageCount_nat env r :
  length (RegistrationPages env r) = (4 + length (customPages env))%nat.
Proof. unfold RegistrationPages. rewrite !length_app. cbn [length]. lia. Qed.

Lemma currentPage_lookup env s :
  validIndex env s ->
  exists page,
    jsIndex (RegistrationPages env s) (currentPage s) = Some page
    /\ RegistrationPages env s !! Z.to_nat (currentPage s) = Some page.
Proof.
  intros Hvalid.
  destruct (jsIndex_in_range (RegistrationPages env s) (currentPage s) Hvalid)
    as [page Hpage].
  exists page. split; [done|].
  unfold jsIndex in Hpage. unfold validIndex in Hvalid.
  by destruct (Z.ltb_spec (currentPage s) 0); [lia|].
Qed.

Lemma jsIndex_out_of_range {A} (l : list A) (i : Z) :
  ~ (0 <= i < Z.of_nat (length l)) -> jsIndex l i = None.
Proof.
  intros Hout. unfold jsIndex.
  destruct (Z.ltb_spec i 0); [done|].
  apply lookup_ge_None. lia.
Qed.

Lemma jsIndex_canGoBack env r i page :
  jsIndex (RegistrationPages env r) i = Some page ->
  canGoBack page = Some (negb (i =? 0) && negb (i =? pageCount env r - 1)).
Proof.
  pose proof (pageCount_eq env r) as Hcount.
  intros Hpage. unfold jsIndex in Hpage.
  destruct (Z.ltb_spec i 0) as [|Hi]; [done|].
  apply RegistrationPages_lookup in Hpage
    as [[Hn ->]|[[Hn ->]|[[Hn ->]|[[Hn ->]|[Hn ->]]]]]; cbn [canGoBack]; f_equal.
  - by replace i with 0 by lia.
  - replace i with 1 by lia. by destruct (Z.eqb_spec 1 (pageCount env r - 1)); [lia|].
  - replace i with 2 by lia. by destruct (Z.eqb_spec 2 (pageCount env r - 1)); [lia|].
  - destruct (Z.eqb_spec i 0); [lia|].
    by destruct (Z.eqb_spec i (pageCount env r - 1)); [lia|].
  - destruct (Z.eqb_spec i 0); [lia|].
    destruct (Z.eqb_spec i (pageCount env r - 1)); [done|lia].
Qed.

(** Running a computation that returns without calls, then another. *)
Lemma bind_pure {A B} (m : M A) (k : A -> M B) s a s1 :
  m s = (Resolved a, s1, []) -> bind m k s = k a s1.
Proof.
  intros Hm. unfold bind. rewrite Hm. by destruct (k a s1) as [[o s2] calls].
Qed.

(** X1: the page list starts with the Eula page and ends with the
    Complete page; between them come CreatePassword, AccountDetails and
    one page for every non-null injected component after the first.
    Only the first and the last page refuse going back, and the custom
    pages, named by their position, always allow going forward. *)
Theorem RegistrationPages_structure (env : Env) (r : PagerState) :
  pageCount env r
    = 4 + Z.of_nat (length (omap id (drop 1 (customDetails env))))
  /\ name <$> jsIndex (RegistrationPages env r) 0 = Some "Eula"
  /\ name <$> jsIndex (RegistrationPages env r) (pageCount env r - 1)
     = Some "Complete"
  /\ (forall i page,
       jsIndex (RegistrationPages env r) i = Some page ->
       canGoBack page = Some (negb (i =? 0) && negb (i =? pageCount env r - 1)))
  /\ (forall i page,
       3 <= i < pageCount env r - 1 ->
       jsIndex (RegistrationPages env r) i = Some page ->
       page = {| name := "CustomPage" +:+ pretty (Z.to_nat i - 2)%nat;
                 canGoForward := Some true;
                 canGoBack := Some true |}).
Proof.
  pose proof (pageCount_nat env r) as Hlen.
  assert (Hcount : pageCount env r = 4 + Z.of_nat (length (customPages env)))
    by apply pageCount_eq.
  repeat apply conj.
  - rewrite Hcount. unfold customPages. by rewrite length_imap.
  - reflexivity.
  - unfold jsIndex. destruct (Z.ltb_spec (pageCount env r - 1) 0); [lia|].
    replace (Z.to_nat (pageCount env r - 1))
      with (3 + length (customPages env))%nat by lia.
    unfold RegistrationPages.
    change (name <$> ((customPages env ++
              [{| name := "Complete"; canGoForward := Some true;
                  canGoBack := Some false |}]) !! length (customPages env))
            = Some "Complete").
    by rewrite list_lookup_middle.
  - intros i page. apply jsIndex_canGoBack.
  - intros i page Hrange Hpage. unfold jsIndex in Hpage.
    destruct (Z.ltb_spec i 0) as [|Hi]; [lia|].
    apply RegistrationPages_lookup in Hpage
      as [[Hn ->]|[[Hn ->]|[[Hn ->]|[[Hn ->]|[Hn ->]]]]]; try lia. done.
Qed.

Lemma RegistrationPages_structure_witness :
  (name <$> RegistrationPages customEnv initialState)
    = ["Eula"; "CreatePassword"; "AccountDetails"; "CustomPage1";
       "CustomPage2"; "Complete"]
  /\ jsIndex (RegistrationPages customEnv initialState) 4
     = Some {| name := "CustomPage2";
               canGoForward := Some true;
               canGoBack := Some true |}
  /\ canGoBack {| name := "CustomPage2";
                  canGoForward := Some true;
                  canGoBack := Some true |}
     = Some (negb (4 =? 0)
             && negb (4 =? pageCount customEnv initialState - 1))
  /\ {| name := "CustomPage2"; canGoForward := Some true; canGoBack := Some true |}
     = {| name := "CustomPage" +:+ pretty (Z.to_nat 4 - 2)%nat;
          canGoForward := Some true;
          canGoBack := Some true |}.
Proof.
  pose proof (RegistrationPages_structure customEnv initialState)
    as (_ & _ & _ & Hback & Hcustom).
  split; [reflexivity|]. split; [reflexivity|]. split.
  - apply (Hback 4). reflexivity.
  - apply (Hcustom 4); [vm_compute; split; [discriminate | reflexivity]|].
    reflexivity.
Defined.

(** ** What gates the Next button *)

(** X2: what [canProgress] answers on each page: the acceptance of the
    EULA on the first page, a non-empty password on the second, non-null
    account details on the third, and true on every custom page and on
    the Complete page, whatever validity the custom pages reported. *)
Theorem canProgress_by_page (env : Env) (s : PagerState) :
  (currentPage s = 0 ->
   runOutcome (canProgress env s) s = Resolved (eulaAccepted s))
  /\ (currentPage s = 1 ->
      runOutcome (canProgress env s) s
        = Resolved (negb (String.eqb (password s) EmptyString)))
  /\ (currentPage s = 2 ->
      runOutcome (canProgress env s) s
        = Resolved (bool_decide (is_Some (accountDetails s))))
  /\ (3 <= currentPage s < pageCount env s ->
      runOutcome (canProgress env s) s = Resolved true).
Proof.
  assert (Hat : forall page,
    validIndex env s ->
    RegistrationPages env s !! Z.to_nat (currentPage s) = Some page ->
    runOutcome (canProgress env s) s = Resolved (default false (canGoForward page))).
  { intros page Hvalid Hpage. unfold runOutcome.
    rewrite (canProgress_run env s s page); [done|].
    unfold jsIndex. unfold validIndex in Hvalid.
    by destruct (Z.ltb_spec (currentPage s) 0); [lia|]. }
  pose proof (pageCount_ge_4 env s) as Hcount.
  repeat apply conj.
  - intros Hcur. rewrite (Hat {| name := "Eula"; canGoForward := Some (eulaAccepted s);
                    canGoBack := Some false |}); [done|unfold validIndex; lia|].
    by rewrite Hcur.
  - intros Hcur.
    rewrite (Hat {| name := "CreatePassword";
                    canGoForward := Some (0 <? String.length (password s))%nat;
                    canGoBack := Some true |});
      [|unfold validIndex; lia|by rewrite Hcur].
    cbn. f_equal. by destruct (password s).
  - intros Hcur.
    rewrite (Hat {| name := "AccountDetails";
                    canGoForward := Some (bool_decide (is_Some (accountDetails s)));
                    canGoBack := Some true |});
      [done|unfold validIndex; lia|by rewrite Hcur].
  - intros Hrange.
    destruct (currentPage_lookup env s) as (page & _ & Hpage);
      [unfold validIndex; lia|].
    rewrite (Hat page); [|unfold validIndex; lia|done].
    apply RegistrationPages_lookup in Hpage
      as [[Hn ->]|[[Hn ->]|[[Hn ->]|[[Hn ->]|[Hn ->]]]]]; try lia; done.
Qed.

Lemma canProgress_by_page_witness :
  runOutcome (canProgress validatedEnv initialState) initialState = Resolved false
  /\ runOutcome (canProgress validatedEnv (withCurrentPage 1 filledState))
       (withCurrentPage 1 filledState) = Resolved true
  /\ runOutcome (canProgress validatedEnv unfilledState) unfilledState
     = Resolved false
  /\ runOutcome (canProgress customEnv (withCurrentPage 4 initialState))
       (withCurrentPage 4 initialState) = Resolved true.
Proof.
  split; [|split; [|split]].
  - apply (proj1 (canProgress_by_page validatedEnv initialState)). reflexivity.
  - apply (proj1 (proj2 (canProgress_by_page validatedEnv
                           (withCurrentPage 1 filledState)))).
    reflexivity.
  - apply (proj1 (proj2 (proj2 (canProgress_by_page validatedEnv unfilledState)))).
    reflexivity.
  - apply (proj2 (proj2 (proj2 (canProgress_by_page customEnv
                                  (withCurrentPage 4 initialState))))).
    vm_compute. split; [discriminate | reflexivity].
Defined.

(** ** The back logic *)

Lemma advancePage_back_run env s :
  0 < currentPage s ->
  advancePage env s (-1) s
    = (Resolved tt, withCurrentPage (currentPage s - 1) s, []).
Proof.
  intros Hcur.
  destruct (advancePage_cases env s s (-1))
    as [Hz|Hf Hd|Hl Hd|Hp Hd Hs Hfw|Hnz Hf Hl _]; try done; lia.
Qed.

(** X3: on a valid index the back logic (the hardware back button)
    never gets stuck: on the first page and on the Complete page it
    leaves the wizard for the Login screen with the state untouched, and
    on every page between them it moves back by exactly one page and
    calls nothing. *)
Theorem backLogic_exits_or_steps_back (env : Env) (s : PagerState) :
  validIndex env s ->
  (currentPage s = 0 \/ currentPage s = pageCount env s - 1 ->
   backLogic env s s = (Resolved tt, s, [CallNavigate "Login"]))
  /\ (0 < currentPage s < pageCount env s - 1 ->
      backLogic env s s
        = (Resolved tt, withCurrentPage (currentPage s - 1) s, [])).
Proof.
  intros Hvalid.
  pose proof (pageCount_ge_4 env s) as Hcount.
  destruct (currentPage_lookup env s Hvalid) as (page & Hpage & _).
  pose proof (jsIndex_canGoBack env s _ page Hpage) as Hback.
  unfold backLogic, isFirstStep, isLastStep.
  destruct (Z.eqb_spec (currentPage s) 0) as [Hfirst|Hfirst].
  { split; [done|lia]. }
  unfold mbind, M_bind.
  rewrite (bind_pure _ _ s _ s (canGoBackProgress_run env s s page Hpage)).
  rewrite Hback. cbn [default from_option id negb andb].
  destruct (Z.eqb_spec (currentPage s) (pageCount env s - 1)) as [Hlast|Hlast];
    cbn [negb].
  - split; [done|lia].
  - split; [intros [?|?]; lia|].
    intros Hmid. apply advancePage_back_run. unfold validIndex in Hvalid. lia.
Qed.

Lemma backLogic_exits_or_steps_back_witness :
  backLogic validatedEnv (withCurrentPage 3 filledState)
      (withCurrentPage 3 filledState)
    = (Resolved tt, withCurrentPage 3 filledState, [CallNavigate "Login"])
  /\ backLogic validatedEnv filledState filledState
     = (Resolved tt, withCurrentPage 1 filledState, []).
Proof.
  split.
  - apply (proj1 (backLogic_exits_or_steps_back validatedEnv
                    (withCurrentPage 3 filledState)
                    ltac:(vm_compute; split; [discriminate | reflexivity]))).
    right. reflexivity.
  - apply (proj2 (backLogic_exits_or_steps_back validatedEnv filledState
                    ltac:(vm_compute; split; [discriminate | reflexivity]))).
    vm_compute. split; reflexivity.
Defined.

(** ** Which handlers can throw *)

Lemma advancePage_returns env r s delta :
  runOutcome (advancePage env r delta) s = Resolved tt.
Proof.
  unfold runOutcome.
  destruct (advancePage_cases env r s delta); try done.
  by rewrite attemptRegistration_run.
Qed.

(** X4: reading the current page is the only thing that can throw in a
    handler.  [advancePage] guards it and returns for every index and
    every [delta]; so does every handler and effect but the back logic,
    which returns exactly when the index is an index of the page
    list. *)
Theorem handlers_throw_only_out_of_range (env : Env) (s : PagerState) :
  (forall ev, ev <> EvBackLogic -> runOutcome (handler env s ev) s = Resolved tt)
  /\ (runOutcome (handler env s EvBackLogic) s = Resolved tt <-> validIndex env s).
Proof.
  split.
  - intros ev Hev.
    destruct ev as [delta| |i|b|p|d|i details v| | | |]; cbn [handler]; try done.
    + apply advancePage_returns.
    + unfold customPageSubmit.
      destruct (customAccountDetails s) as [g|]; [|done].
      destruct (g !! (i + 1)%nat) as [entry|]; [|done].
      destruct (valid entry); [|done]. apply advancePage_returns.
    + unfold customDetailsChanged. by destruct (customAccountDetails s).
    + apply loadAndCacheEula_returns.
    + unfold registrationSuccessEffect.
      by destruct ((currentPage s =? pageCount env s - 2) && registrationSuccess env).
    + unfold validationEffect.
      destruct (negb (isValidationInTransit env) && negb (validationComplete env)
                && (0 <? String.length (validationCode env))%nat); [|done].
      unfold runOutcome, validateCode. unfold_monad.
      by destruct (validateUserRegistrationRequest env _ _) as [[|]|e].
  - cbn [handler]. split.
    + intros Hreturns.
      destruct (decide (0 <= currentPage s < pageCount env s)) as [|Hout]; [done|].
      exfalso. revert Hreturns.
      unfold runOutcome, backLogic, isFirstStep.
      destruct (Z.eqb_spec (currentPage s) 0) as [Hfirst|Hfirst].
      { pose proof (pageCount_ge_4 env s). lia. }
      unfold mbind, M_bind, bind, canGoBackProgress.
      by rewrite (jsIndex_out_of_range _ _ Hout).
    + intros Hvalid.
      unfold runOutcome, backLogic, isFirstStep.
      destruct (Z.eqb_spec (currentPage s) 0) as [Hfirst|Hfirst]; [done|].
      destruct (currentPage_lookup env s Hvalid) as (page & Hpage & _).
      unfold mbind, M_bind.
      rewrite (bind_pure _ _ s _ s (canGoBackProgress_run env s s page Hpage)).
      destruct (default true (canGoBack page)).
      * apply advancePage_returns.
      * by destruct (isLastStep env s).
Qed.

Lemma handlers_throw_only_out_of_range_witness :
  runOutcome (handler validatedEnv (withCurrentPage 4 initialState)
                (EvAdvancePage 1)) (withCurrentPage 4 initialState)
    = Resolved tt
  /\ validIndex validatedEnv filledState.
Proof.
  split.
  - apply (proj1 (handlers_throw_only_out_of_range validatedEnv
                    (withCurrentPage 4 initialState))).
    discriminate.
  - apply (proj1 (proj2 (handlers_throw_only_out_of_range validatedEnv filledState))).
    reflexivity.
Defined.

(** ** What a render reads *)

Lemma pageTitles_length env r :
  Z.of_nat (length (pageTitles env)) = pageCount env r.
Proof.
  rewrite pageCount_eq. unfold pageTitles.
  rewrite !length_app, length_fmap. cbn [length]. lia.
Qed.

Lemma pageTitle_returns env s :
  validIndex env s -> exists title, pageTitle env s = Resolved title.
Proof.
  intros Hvalid. unfold pageTitle.
  destruct (isValidationInTransit env); [by eexists|].
  destruct (bool_decide _); [by eexists|].
  destruct (jsIndex_in_range (pageTitles env) (currentPage s)) as [title ->].
  - by rewrite (pageTitles_length env s).
  - by eexists.
Qed.

Lemma buttonArea_lemma (env : Env) (s : PagerState) :
  (validIndex env s ->
   exists forward,
     runOutcome (canProgress env s) s = Resolved forward
     /\ buttonArea env s
        = Resolved
            (if currentPage s =? pageCount env s - 1 then ContinueButton
             else BackNextButtons (currentPage s =? 0) (currentPage s)
                    (pageCount env s) (negb forward)))
  /\ (~ validIndex env s -> exists e, buttonArea env s = Rejected e).
Proof.
  split.
  - intros Hvalid.
    destruct (currentPage_lookup env s Hvalid) as (page & Hpage & _).
    pose proof (jsIndex_canGoBack env s _ page Hpage) as Hback.
    exists (default false (canGoForward page)).
    unfold buttonArea, isLastStep, runOutcome.
    rewrite (canProgress_run env s s page Hpage),
      (canGoBackProgress_run env s s page Hpage), Hback.
    split; [done|].
    destruct (Z.eqb_spec (currentPage s) (pageCount env s - 1)); [done|].
    cbn. by rewrite andb_true_r, negb_involutive.
  - intros Hout. unfold buttonArea, isLastStep.
    destruct (Z.eqb_spec (currentPage s) (pageCount env s - 1)) as [Hlast|_].
    { exfalso. apply Hout. unfold validIndex.
      pose proof (pageCount_ge_4 env s). lia. }
    unfold runOutcome, canGoBackProgress.
    rewrite (jsIndex_out_of_range (RegistrationPages env s) (currentPage s) Hout).
    by eexists.
Qed.

(** X5: the button area of a valid index.  The last page shows the
    single Continue button; every other page shows Back and Next, Back
    being disabled on the first page only and Next being disabled exactly
    when [canProgress] answers false.  Outside the page list the button
    area cannot be built: reading the page throws. *)
Theorem buttonArea_by_page (env : Env) (s : PagerState) :
  (validIndex env s ->
   exists forward,
     runOutcome (canProgress env s) s = Resolved forward
     /\ buttonArea env s
        = Resolved
            (if currentPage s =? pageCount env s - 1 then ContinueButton
             else BackNextButtons (currentPage s =? 0) (currentPage s)
                    (pageCount env s) (negb forward)))
  /\ (~ validIndex env s -> exists e, buttonArea env s = Rejected e).
Proof. apply buttonArea_lemma. Qed.

Lemma buttonArea_by_page_witness :
  buttonArea validatedEnv unfilledState = Resolved (BackNextButtons false 2 4 true)
  /\ buttonArea validatedEnv initialState = Resolved (BackNextButtons true 0 4 true)
  /\ exists e, buttonArea validatedEnv (withCurrentPage 4 initialState) = Rejected e.
Proof.
  split; [|split].
  - destruct (proj1 (buttonArea_by_page validatedEnv unfilledState)
                ltac:(vm_compute; split; [discriminate | reflexivity]))
      as (forward & Hforward & Harea).
    vm_compute in Hforward. injection Hforward as <-. exact Harea.
  - destruct (proj1 (buttonArea_by_page validatedEnv initialState)
                ltac:(vm_compute; split; [discriminate | reflexivity]))
      as (forward & Hforward & Harea).
    vm_compute in Hforward. injection Hforward as <-. exact Harea.
  - apply (proj2 (buttonArea_by_page validatedEnv (withCurrentPage 4 initialState))).
    vm_compute. intros [_ Hlt]. discriminate Hlt.
Defined.

Lemma advancePage_customAccountDetails env r s delta :
  customAccountDetails (runState (advancePage env r delta) s)
  = customAccountDetails s.
Proof.
  unfold runState.
  destruct (advancePage_cases env r s delta); try done.
  by rewrite attemptRegistration_run.
Qed.

(** No handler and no effect sets the group of custom details to
    null. *)
Lemma handle_customAccountDetails env ev s :
  is_Some (customAccountDetails s) ->
  is_Some (customAccountDetails (handle env ev s)).
Proof.
  intros Hgroup. unfold handle.
  destruct ev as [delta| |i|b|p|d|i details v| | | |]; cbn [handler]; try done.
  - by rewrite advancePage_customAccountDetails.
  - unfold runState, backLogic.
    destruct (isFirstStep s); [done|].
    destruct (jsIndex (RegistrationPages env s) (currentPage s))
      as [page|] eqn:Hpage.
    + unfold mbind, M_bind.
      rewrite (bind_pure _ _ s _ s (canGoBackProgress_run env s s page Hpage)).
      destruct (default true (canGoBack page)).
      * fold (runState (advancePage env s (-1)) s).
        by rewrite advancePage_customAccountDetails.
      * by destruct (isLastStep env s).
    + unfold mbind, M_bind, bind, canGoBackProgress. by rewrite Hpage.
  - unfold customPageSubmit.
    destruct (customAccountDetails s) as [g|] eqn:Hg;
      [|by destruct Hgroup as [g Hnone]].
    destruct (g !! (i + 1)%nat) as [entry|];
      [|change (is_Some (customAccountDetails s)); by rewrite Hg].
    destruct (valid entry);
      [|change (is_Some (customAccountDetails s)); by rewrite Hg].
    by rewrite advancePage_customAccountDetails, Hg.
  - unfold customDetailsChanged. by destruct (customAccountDetails s).
  - unfold runState, loadAndCacheEula.
    destruct (eulaContent s) as [[|ch content]|]; unfold_monad;
      try done; by destruct (loadEULA env (language env)).
  - unfold runState, registrationSuccessEffect.
    by destruct ((currentPage s =? pageCount env s - 2) && registrationSuccess env).
  - unfold validationEffect.
    destruct (negb (isValidationInTransit env) && negb (validationComplete env)
              && (0 <? String.length (validationCode env))%nat); [|done].
    unfold runState, validateCode. unfold_monad.
    by destruct (validateUserRegistrationRequest env _ _) as [[|]|e].
Qed.

(** X6: when a render succeeds.  The body of the component evaluates
    to the screen chosen by the rendering branches exactly when the
    index is a valid index and the page list can be built, that is, the
    group of custom details is not null or there is no custom page;
    otherwise it throws, whichever screen would have been chosen.  The
    group starts as an empty object and no handler or effect makes it
    null. *)
Theorem renderChecked_valid_index (env : Env) (s : PagerState) :
  (validIndex env s ->
   is_Some (customAccountDetails s) \/ customPages env = [] ->
   renderChecked env s = Resolved (render env s))
  /\ (~ validIndex env s
      \/ (customAccountDetails s = None /\ customPages env <> []) ->
      exists e, renderChecked env s = Rejected e)
  /\ is_Some (customAccountDetails initialState)
  /\ (forall ev,
       is_Some (customAccountDetails s) ->
       is_Some (customAccountDetails (handle env ev s))).
Proof.
  repeat apply conj.
  - intros Hvalid Hbuilt. unfold renderChecked.
    assert (Hpages :
      buildRegistrationPages env s = Resolved (RegistrationPages env s)).
    { unfold buildRegistrationPages.
      destruct Hbuilt as [[g ->]| ->]; [done|].
      by destruct (customAccountDetails s). }
    rewrite Hpages.
    destruct (proj1 (buttonArea_lemma env s) Hvalid) as (forward & _ & ->).
    destruct (pageTitle_returns env s Hvalid) as [title ->].
    by destruct (render env s).
  - intros [Hout|[Hnull Hcustom]]; unfold renderChecked.
    + destruct (buildRegistrationPages env s) as [pages|e]; [|by eexists].
      destruct (proj2 (buttonArea_lemma env s) Hout) as [e ->]. by eexists.
    + unfold buildRegistrationPages. rewrite Hnull.
      destruct (customPages env); [done|]. by eexists.
  - by eexists.
  - intros ev. apply handle_customAccountDetails.
Qed.

Lemma renderChecked_valid_index_witness :
  renderChecked validatedEnv filledState = Resolved (render validatedEnv filledState)
  /\ (exists e, renderChecked existingAccountEnv
                  (withCurrentPage (-1) (withAccountAlreadyExists true initialState))
                = Rejected e)
  /\ (exists e, renderChecked customEnv
                  (withCustomAccountDetails None initialState)
                = Rejected e)
  /\ is_Some (customAccountDetails
                (handle customEnv (EvCustomDetailsChanged 0 ∅ false) initialState)).
Proof.
  split; [|split; [|split]].
  - apply (proj1 (renderChecked_valid_index validatedEnv filledState)).
    + vm_compute. split; [discriminate | reflexivity].
    + right. reflexivity.
  - apply (proj1 (proj2 (renderChecked_valid_index existingAccountEnv
                           (withCurrentPage (-1)
                              (withAccountAlreadyExists true initialState))))).
    left. vm_compute. intros [Hle _]. apply Hle. reflexivity.
  - apply (proj1 (proj2 (renderChecked_valid_index customEnv
                           (withCustomAccountDetails None initialState)))).
    right. split; [reflexivity | discriminate].
  - apply (proj2 (proj2 (proj2 (renderChecked_valid_index customEnv initialState)))).
    by eexists.
Defined.

(** ** The view pager *)

Lemma viewPagerEffect_withCurrentPage env s i :
  viewPagerEffect env (withCurrentPage i s) true
  = if i =? pageCount env s - 1
    then [SetPageWithoutAnimation i]
    else [SetPage i].
Proof.
  unfold viewPagerEffect, CompletePage.
  by rewrite (pageCount_state env (withCurrentPage i s) s).
Qed.

(** X7: how the view pager follows the index.  After the jump made on
    the success of the registration the pager is moved to the Complete
    page without animation; after a step back from a valid index it is
    moved, animated, to the page before; and nothing is sent while the
    pager is not attached. *)
Theorem viewPagerEffect_follows_index (env : Env) (s : PagerState) :
  (currentPage s = pageCount env s - 2 ->
   registrationSuccess env = true ->
   viewPagerEffect env (handle env EvRegistrationSuccessEffect s) true
     = [SetPageWithoutAnimation (pageCount env s - 1)])
  /\ (validIndex env s -> 0 < currentPage s ->
      viewPagerEffect env (handle env (EvAdvancePage (-1)) s) true
        = [SetPage (currentPage s - 1)])
  /\ viewPagerEffect env s false = [].
Proof.
  repeat apply conj; [| |done].
  - intros Hpen Hsuccess.
    unfold handle, runState. cbn [handler].
    unfold registrationSuccessEffect, CompletePage.
    rewrite Hsuccess, Hpen, Z.eqb_refl.
    unfold setCurrentPage, modify. cbn [andb fst snd].
    rewrite viewPagerEffect_withCurrentPage.
    by destruct (Z.eqb_spec (pageCount env s - 1) (pageCount env s - 1)).
  - intros Hvalid Hcur. unfold handle, runState. cbn [handler].
    rewrite (advancePage_back_run env s Hcur). cbn [fst snd].
    rewrite viewPagerEffect_withCurrentPage. unfold validIndex in Hvalid.
    by destruct (Z.eqb_spec (currentPage s - 1) (pageCount env s - 1)); [lia|].
Qed.

Lemma viewPagerEffect_follows_index_witness :
  viewPagerEffect registeredEnv
      (handle registeredEnv EvRegistrationSuccessEffect filledState) true
    = [SetPageWithoutAnimation 3]
  /\ viewPagerEffect validatedEnv
       (handle validatedEnv (EvAdvancePage (-1)) filledState) true
     = [SetPage 1].
Proof.
  split.
  - apply (proj1 (viewPagerEffect_follows_index registeredEnv filledState));
      reflexivity.
  - apply (proj1 (proj2 (viewPagerEffect_follows_index validatedEnv filledState)));
      [vm_compute; split; [discriminate | reflexivity] | reflexivity].
Defined.

(** ** What is submitted *)

Lemma objectKeys_sorted (g : CustomRegistrationDetailsGroup) :
  StronglySorted Nat.le (objectKeys g).
Proof. unfold objectKeys. apply StronglySorted_merge_sort; apply _. Qed.

Lemma objectKeys_NoDup (g : CustomRegistrationDetailsGroup) :
  NoDup (objectKeys g).
Proof.
  unfold objectKeys. rewrite merge_sort_Permutation.
  apply NoDup_fst_map_to_list.
Qed.

Lemma objectKeys_elem_of (g : CustomRegistrationDetailsGroup) key :
  key ∈ objectKeys g <-> is_Some (g !! key).
Proof.
  unfold objectKeys. rewrite merge_sort_Permutation, list_elem_of_fmap.
  split.
  - intros [[k entry] [-> Hin]]. apply elem_of_map_to_list in Hin. by exists entry.
  - intros [entry Hentry]. exists (key, entry).
    split; [done|]. by apply elem_of_map_to_list.
Qed.

Lemma foldl_spread_undefined (g : CustomRegistrationDetailsGroup)
    (keys : list nat) (acc : JsObject) (field : string) :
  (forall key, key ∈ keys -> default ∅ (values <$> g !! key) !! field = None) ->
  foldl (fun acc key => spread acc (default ∅ (values <$> g !! key))) acc keys
    !! field = acc !! field.
Proof.
  revert acc. induction keys as [|key keys IH]; intros acc Hnone; [done|].
  cbn [foldl]. rewrite IH.
  - unfold spread. apply lookup_union_r, Hnone. by left.
  - intros key' Hkey'. apply Hnone. by right.
Qed.

Lemma foldl_spread_last (g : CustomRegistrationDetailsGroup)
    (before after : list nat) (key : nat) (acc : JsObject)
    (field : string) (v : FieldValue) :
  default ∅ (values <$> g !! key) !! field = Some v ->
  (forall key', key' ∈ after ->
     default ∅ (values <$> g !! key') !! field = None) ->
  foldl (fun acc key => spread acc (default ∅ (values <$> g !! key)))
    acc (before ++ key :: after) !! field = Some v.
Proof.
  intros Hkey Hafter. rewrite foldl_app. cbn [foldl].
  rewrite (foldl_spread_undefined g after _ field Hafter).
  unfold spread. by apply lookup_union_Some_l.
Qed.

(** X8: the flattening of the custom details, field by field: a field
    gets the value given by the highest-numbered page that has it, so a
    later page overrides an earlier one whatever the order in which the
    pages were filled in; a field that no page has is absent. *)
Theorem flattenedDetails_highest_page_wins
    (g : CustomRegistrationDetailsGroup) (field : string) :
  (forall page entry v,
     g !! page = Some entry ->
     values entry !! field = Some v ->
     (forall page' entry',
        (page < page')%nat -> g !! page' = Some entry' ->
        values entry' !! field = None) ->
     flattenedDetailsOf g !! field = Some v)
  /\ ((forall page entry, g !! page = Some entry -> values entry !! field = None) ->
      flattenedDetailsOf g !! field = None).
Proof.
  split.
  - intros page entry v Hentry Hfield Hhigher.
    assert (Hin : page ∈ objectKeys g) by (apply objectKeys_elem_of; eauto).
    apply list_elem_of_split in Hin as (before & after & Hsplit).
    pose proof (objectKeys_sorted g) as Hsorted.
    pose proof (objectKeys_NoDup g) as Hnodup.
    rewrite Hsplit in Hsorted, Hnodup.
    apply StronglySorted_app_1_r in Hsorted.
    apply StronglySorted_cons in Hsorted as [Hle _].
    apply NoDup_app in Hnodup as (_ & _ & Hnodup).
    apply NoDup_cons in Hnodup as [Hfresh _].
    unfold flattenedDetailsOf. rewrite Hsplit.
    apply foldl_spread_last.
    + by rewrite Hentry.
    + intros page' Hpage'.
      destruct (g !! page') as [entry'|] eqn:Hentry'; [|done]. cbn.
      apply (Hhigher page' entry'); [|done].
      rewrite Forall_forall in Hle. specialize (Hle page' Hpage').
      assert (page' <> page) by (intros ->; done). lia.
  - intros Hnone. unfold flattenedDetailsOf.
    rewrite foldl_spread_undefined; [done|].
    intros key _. destruct (g !! key) as [entry|] eqn:Hentry; [|done].
    cbn. by apply (Hnone key).
Qed.

Lemma flattenedDetails_highest_page_wins_witness :
  flattenedDetailsOf sampleCustomDetails !! "department" = Some (VStr "Sales")
  /\ flattenedDetailsOf sampleCustomDetails !! "phone" = None.
Proof.
  split.
  - apply (proj1 (flattenedDetails_highest_page_wins sampleCustomDetails "department")
             10%nat {| values := {["department" := VStr "Sales"]}; valid := true |});
      [reflexivity | reflexivity |].
    intros page' entry' Hlt Hentry'.
    assert (Hin : page' ∈ objectKeys sampleCustomDetails)
      by (apply objectKeys_elem_of; eauto).
    replace (objectKeys sampleCustomDetails) with [1; 2; 10]%nat in Hin
      by (vm_compute; reflexivity).
    repeat (apply elem_of_cons in Hin as [->|Hin]; [lia|]).
    by apply elem_of_nil in Hin.
  - apply (proj2 (flattenedDetails_highest_page_wins sampleCustomDetails "phone")).
    intros page entry Hentry.
    assert (Hin : page ∈ objectKeys sampleCustomDetails)
      by (apply objectKeys_elem_of; eauto).
    replace (objectKeys sampleCustomDetails) with [1; 2; 10]%nat in Hin
      by (vm_compute; reflexivity).
    repeat (apply elem_of_cons in Hin as [->|Hin];
            [vm_compute in Hentry; injection Hentry as <-; reflexivity|]).
    by apply elem_of_nil in Hin.
Defined.

(** X9: the account details submitted by [attemptRegistration], field
    by field: a field of the flattened custom details wins; otherwise the
    field comes from the core account details (first and last name, the
    empty defaults when they are null); nothing else is submitted.  So a
    custom page with a field called [firstName] overrides the first name
    typed on the account details page. *)
Theorem submitted_details_by_field (env : Env) (r s : PagerState) (field : string) :
  exists payload,
    runCalls (attemptRegistration env r) s
      = [CallCompleteRegistration payload (validationCode env) (validationEmail env)]
    /\ payloadPassword payload = password r
    /\ payloadAccountDetails payload !! field =
       match flattenedDetailsOf (default ∅ (customAccountDetails r)) !! field with
       | Some v => Some v
       | None =>
           if String.eqb field "firstName"
           then Some (VStr (from_option firstName EmptyString (accountDetails r)))
           else if String.eqb field "lastName"
           then Some (VStr (from_option lastName EmptyString (accountDetails r)))
           else None
       end.
Proof.
  eexists. unfold runCalls. rewrite attemptRegistration_run. cbn [snd].
  split; [reflexivity|]. split; [reflexivity|].
  cbn [payloadAccountDetails registrationPayload]. unfold spread.
  destruct (flattenedDetailsOf _ !! field) as [v|] eqn:Hflat.
  - by apply lookup_union_Some_l.
  - rewrite lookup_union_r by done. unfold accountDetailObject.
    destruct (String.eqb_spec field "firstName") as [->|Hfirst].
    { rewrite lookup_insert_eq. by destruct (accountDetails r). }
    rewrite lookup_insert_ne by done.
    destruct (String.eqb_spec field "lastName") as [->|Hlast].
    { rewrite lookup_insert_eq. by destruct (accountDetails r). }
    by rewrite lookup_insert_ne.
Qed.

(** ** The custom details of a page *)

(** X10: [onDetailsChanged] of the custom page [i + 1] stores its
    details and validity under the key [i + 1] and keeps every other
    entry of the group of the render it was created in.  Two calls made
    from the same render do not add up: after both, only the second
    page's entry is new and the first one's is lost. *)
Theorem customDetailsChanged_stores (r s : PagerState)
    (i j : nat) (details details' : JsObject) (v v' : bool) :
  (exists g',
     customAccountDetails (runState (customDetailsChanged r i details v) s) = Some g'
     /\ g' !! (i + 1)%nat = Some {| values := details; valid := v |}
     /\ forall key, key <> (i + 1)%nat ->
          g' !! key = default ∅ (customAccountDetails r) !! key)
  /\ (i <> j ->
      exists g'',
        customAccountDetails
          (runState (customDetailsChanged r i details v;;
                     customDetailsChanged r j details' v') s) = Some g''
        /\ g'' !! (j + 1)%nat = Some {| values := details'; valid := v' |}
        /\ g'' !! (i + 1)%nat = default ∅ (customAccountDetails r) !! (i + 1)%nat).
Proof.
  split.
  - unfold runState, customDetailsChanged.
    destruct (customAccountDetails r) as [g|]; cbn; eexists;
      (split; [reflexivity|]); split.
    + apply lookup_insert_eq.
    + intros key Hkey. by rewrite lookup_insert_ne.
    + apply lookup_singleton_eq.
    + intros key Hkey. by rewrite lookup_singleton_ne.
  - intros Hij. unfold runState, customDetailsChanged.
    destruct (customAccountDetails r) as [g|]; cbn; eexists;
      (split; [reflexivity|]); split.
    + apply lookup_insert_eq.
    + rewrite lookup_insert_ne by lia. done.
    + apply lookup_singleton_eq.
    + rewrite lookup_singleton_ne by lia. done.
Qed.

Lemma customDetailsChanged_stores_witness :
  exists g'',
    customAccountDetails
      (runState (customDetailsChanged initialState 0 {["floor" := VNum 3]} true;;
                 customDetailsChanged initialState 1 {["desk" := VNum 7]} true)
         initialState) = Some g''
    /\ g'' !! 2%nat = Some {| values := {["desk" := VNum 7]}; valid := true |}
    /\ g'' !! 1%nat = None.
Proof.
  apply (proj2 (customDetailsChanged_stores initialState initialState 0 1
                  {["floor" := VNum 3]} {["desk" := VNum 7]} true true)).
  discriminate.
Defined.

(** ** The dialog after a new attempt *)

(** X14: every registration attempt and every validation re-arms the
    error dialog: whatever was acknowledged before, the dialog is then
    visible exactly when the store holds a registration error message. *)
Theorem errorDialog_rearmed (env env' : Env) (r s : PagerState) :
  dialogVisible (errorDialog env' (runState (attemptRegistration env r) s))
    = hasRegistrationTransitError env'
  /\ dialogVisible (errorDialog env' (runState (validateCode env) s))
     = hasRegistrationTransitError env'
  /\ dialogVisible
       (errorDialog env'
          (runState (attemptRegistration env r) (runState dismissErrorDialog s)))
     = hasRegistrationTransitError env'.
Proof.
  assert (Hvalidate :
    hasAcknowledgedError (runState (validateCode env) s) = false).
  { unfold runState, validateCode. unfold_monad.
    by destruct (validateUserRegistrationRequest env _ _) as [[|]|e]. }
  unfold errorDialog. cbn [dialogVisible].
  rewrite Hvalidate. unfold runState. rewrite !attemptRegistration_run.
  cbn. by rewrite !andb_true_r.
Qed.

(** ** What a handler can do to the outside world *)

Lemma advancePage_effects env s delta :
  (runCalls (advancePage env s delta) s = []
   /\ accountAlreadyExists (runState (advancePage env s delta) s)
      = accountAlreadyExists s)
  \/ advancePage env s delta s = (Resolved tt, s, [CallNavigate "Login"])
  \/ (advancePage env s delta s = attemptRegistration env s s
      /\ currentPage s = pageCount env s - 2
      /\ 0 < delta
      /\ registrationSuccess env = false
      /\ canGoForward <$> jsIndex (RegistrationPages env s) (currentPage s)
         = Some (Some true)).
Proof.
  unfold runCalls, runState.
  destruct (advancePage_cases env s s delta)
    as [Hz|Hf Hd|Hl Hd|Hp Hd Hs Hfw|Hnz Hf Hl _].
  - by left.
  - right. by left.
  - right. by left.
  - right. right. done.
  - by left.
Qed.

(** Every run of a handler is of one of five kinds. *)
Lemma handler_effects env s ev :
  (runCalls (handler env s ev) s = []
   /\ accountAlreadyExists (runState (handler env s ev) s)
      = accountAlreadyExists s)
  \/ handler env s ev s = (Resolved tt, s, [CallNavigate "Login"])
  \/ (handler env s ev s = attemptRegistration env s s
      /\ currentPage s = pageCount env s - 2
      /\ registrationSuccess env = false
      /\ canGoForward <$> jsIndex (RegistrationPages env s) (currentPage s)
         = Some (Some true))
  \/ (ev = EvValidationEffect /\ handler env s ev s = validateCode env s)
  \/ (ev = EvLoadEula /\ handler env s ev s = loadAndCacheEula env s s).
Proof.
  assert (Hadvance : forall delta,
    (runCalls (advancePage env s delta) s = []
     /\ accountAlreadyExists (runState (advancePage env s delta) s)
        = accountAlreadyExists s)
    \/ advancePage env s delta s = (Resolved tt, s, [CallNavigate "Login"])
    \/ (advancePage env s delta s = attemptRegistration env s s
        /\ currentPage s = pageCount env s - 2
        /\ registrationSuccess env = false
        /\ canGoForward <$> jsIndex (RegistrationPages env s) (currentPage s)
           = Some (Some true))
    \/ (ev = EvValidationEffect /\ advancePage env s delta s = validateCode env s)
    \/ (ev = EvLoadEula /\ advancePage env s delta s = loadAndCacheEula env s s)).
  { intros delta.
    destruct (advancePage_effects env s delta)
      as [Hquiet|[Hexit|(Hrun & Hpen & _ & Hsuccess & Hgate)]]; auto.
    right. right. left. done. }
  destruct ev as [delta| |i|b|p|d|i details v| | | |]; cbn [handler];
    unfold runCalls, runState in *.
  - apply Hadvance.
  - unfold backLogic, isFirstStep.
    destruct (currentPage s =? 0); [right; by left|].
    destruct (jsIndex (RegistrationPages env s) (currentPage s))
      as [page|] eqn:Hpage.
    + unfold mbind, M_bind.
      rewrite (bind_pure _ _ s _ s (canGoBackProgress_run env s s page Hpage)).
      destruct (default true (canGoBack page)); [apply Hadvance|].
      destruct (isLastStep env s); [right; by left|by left].
    + left. unfold mbind, M_bind, bind, canGoBackProgress.
      by rewrite Hpage.
  - unfold customPageSubmit.
    destruct (customAccountDetails s) as [g|]; [|by left].
    destruct (g !! (i + 1)%nat) as [entry|]; [|by left].
    destruct (valid entry); [apply Hadvance|by left].
  - by left.
  - by left.
  - by left.
  - left. unfold customDetailsChanged. by destruct (customAccountDetails s).
  - by left.
  - right. right. right. right. done.
  - left. unfold registrationSuccessEffect.
    by destruct ((currentPage s =? pageCount env s - 2) && registrationSuccess env).
  - unfold validationEffect.
    destruct (negb (isValidationInTransit env) && negb (validationComplete env)
              && (0 <? String.length (validationCode env))%nat).
    + right. right. right. left. done.
    + by left.
Qed.

Lemma validateCode_run env s :
  exists answered : bool,
    validateCode env s =
    (Resolved tt,
     (if answered then withAccountAlreadyExists true else id)
       (withHasAcknowledgedError false s),
     [CallValidateUserRegistrationRequest (validationCode env) (validationEmail env)])
    /\ (answered = true <->
        validateUserRegistrationRequest env (validationCode env) (validationEmail env)
          = Resolved true).
Proof.
  unfold validateCode. unfold_monad.
  destruct (validateUserRegistrationRequest env _ _) as [[|]|e].
  - exists true. done.
  - exists false. done.
  - exists false. done.
Qed.

Lemma loadAndCacheEula_calls env r s c :
  c ∈ runCalls (loadAndCacheEula env r) s -> c = CallLoadEULA (language env).
Proof.
  unfold runCalls, loadAndCacheEula.
  destruct (eulaContent r) as [[|ch content]|]; unfold_monad;
    try (by intros ?%elem_of_nil);
    destruct (loadEULA env (language env)); cbn;
    by intros ->%list_elem_of_singleton.
Qed.

(** X12: the registration is never submitted from anywhere but the last
    page of entry: whatever handler or effect runs, a call of
    [completeRegistration] means that the current page is the
    second-to-last, that the registration has not succeeded yet and that
    the page's [canGoForward] is true; and the handler then makes that
    single call and leaves the index where it is. *)
Theorem registration_only_from_last_entry_page
    (env : Env) (s : PagerState) (ev : Event) (c : Call) :
  c ∈ runCalls (handler env s ev) s ->
  isCompleteRegistration c = true ->
  currentPage s = pageCount env s - 2
  /\ registrationSuccess env = false
  /\ runOutcome (canProgress env s) s = Resolved true
  /\ runCalls (handler env s ev) s = [c]
  /\ currentPage (handle env ev s) = currentPage s.
Proof.
  intros Hin Hsubmit. unfold handle, runCalls, runState, runOutcome in *.
  destruct (handler_effects env s ev)
    as [[Hquiet _]|[Hexit|[(Hrun & Hpen & Hsuccess & Hgate)|[[_ Hrun]|[_ Hrun]]]]].
  - unfold runCalls in Hquiet. rewrite Hquiet in Hin. by apply elem_of_nil in Hin.
  - rewrite Hexit in Hin. cbn in Hin.
    apply list_elem_of_singleton in Hin as ->. done.
  - rewrite Hrun, attemptRegistration_run in *. cbn [fst snd] in *.
    apply list_elem_of_singleton in Hin as ->.
    destruct (jsIndex (RegistrationPages env s) (currentPage s))
      as [page|] eqn:Hpage; [|done].
    rewrite (canProgress_run env s s page Hpage). cbn in Hgate.
    injection Hgate as ->. done.
  - rewrite Hrun in Hin.
    destruct (validateCode_run env s) as (answered & Hvalidate & _).
    rewrite Hvalidate in Hin. cbn in Hin.
    apply list_elem_of_singleton in Hin as ->. done.
  - rewrite Hrun in Hin. apply loadAndCacheEula_calls in Hin as ->. done.
Qed.

Lemma registration_only_from_last_entry_page_witness :
  currentPage filledState = pageCount validatedEnv filledState - 2
  /\ registrationSuccess validatedEnv = false
  /\ runOutcome (canProgress validatedEnv filledState) filledState = Resolved true
  /\ runCalls (handler validatedEnv filledState (EvAdvancePage 1)) filledState
     = [CallCompleteRegistration
          (registrationPayload filledState ∅) "ABC" None]
  /\ currentPage (handle validatedEnv (EvAdvancePage 1) filledState)
     = currentPage filledState.
Proof.
  apply (registration_only_from_last_entry_page validatedEnv filledState
           (EvAdvancePage 1)
           (CallCompleteRegistration (registrationPayload filledState ∅) "ABC" None)).
  - apply list_elem_of_singleton. vm_compute. reflexivity.
  - reflexivity.
Defined.

(** X13: leaving the wizard.  Whatever handler or effect runs, a
    navigation goes to the Login screen, it is the only call made, and
    the state of the component is left as it was. *)
Theorem exit_goes_to_login_and_keeps_state
    (env : Env) (s : PagerState) (ev : Event) (c : Call) :
  c ∈ runCalls (handler env s ev) s ->
  isNavigate c = true ->
  c = CallNavigate "Login"
  /\ handler env s ev s = (Resolved tt, s, [CallNavigate "Login"]).
Proof.
  intros Hin Hnavigate. unfold runCalls in *.
  destruct (handler_effects env s ev)
    as [[Hquiet _]|[Hexit|[(Hrun & _)|[[_ Hrun]|[_ Hrun]]]]].
  - unfold runCalls in Hquiet. rewrite Hquiet in Hin. by apply elem_of_nil in Hin.
  - rewrite Hexit in Hin. cbn in Hin.
    by apply list_elem_of_singleton in Hin as ->.
  - rewrite Hrun, attemptRegistration_run in Hin. cbn in Hin.
    apply list_elem_of_singleton in Hin as ->. done.
  - rewrite Hrun in Hin.
    destruct (validateCode_run env s) as (answered & Hvalidate & _).
    rewrite Hvalidate in Hin. cbn in Hin.
    apply list_elem_of_singleton in Hin as ->. done.
  - rewrite Hrun in Hin. apply loadAndCacheEula_calls in Hin as ->. done.
Qed.

Lemma exit_goes_to_login_and_keeps_state_witness :
  CallNavigate "Login" = CallNavigate "Login"
  /\ handler validatedEnv initialState EvBackLogic initialState
     = (Resolved tt, initialState, [CallNavigate "Login"]).
Proof.
  apply (exit_goes_to_login_and_keeps_state validatedEnv initialState EvBackLogic).
  - apply list_elem_of_singleton. reflexivity.
  - reflexivity.
Defined.

(** ** The existing account *)

(** X11: [accountAlreadyExists] is set by the validation only, when it
    answers true, and nothing resets it: once it is true it stays true
    through every handler and effect, and every later render with the
    same state shows the existing-account screen, whatever the store
    holds. *)
Theorem accountAlreadyExists_is_kept (env : Env) (s : PagerState) (ev : Event) :
  (accountAlreadyExists s = true ->
   accountAlreadyExists (handle env ev s) = true
   /\ forall env', render env' (handle env ev s) = ExistingAccountScreen)
  /\ (ev <> EvValidationEffect ->
      accountAlreadyExists (handle env ev s) = accountAlreadyExists s)
  /\ (accountAlreadyExists s = false ->
      accountAlreadyExists (handle env ev s) = true ->
      ev = EvValidationEffect
      /\ validateUserRegistrationRequest env
           (validationCode env) (validationEmail env) = Resolved true).
Proof.
  assert (Hcases :
    accountAlreadyExists (handle env ev s) = accountAlreadyExists s
    \/ (ev = EvValidationEffect
        /\ accountAlreadyExists (handle env ev s) = true
        /\ validateUserRegistrationRequest env
             (validationCode env) (validationEmail env) = Resolved true)).
  { unfold handle, runState.
    destruct (handler_effects env s ev)
      as [[_ Hquiet]|[Hexit|[(Hrun & _)|[[Hev Hrun]|[_ Hrun]]]]].
    - by left.
    - left. by rewrite Hexit.
    - left. by rewrite Hrun, attemptRegistration_run.
    - rewrite Hrun.
      destruct (validateCode_run env s) as ([|] & -> & Hanswer).
      + right. split; [done|]. split; [done|]. by apply Hanswer.
      + by left.
    - left. rewrite Hrun. unfold loadAndCacheEula.
      destruct (eulaContent s) as [[|ch content]|]; unfold_monad;
        try done; by destruct (loadEULA env (language env)). }
  repeat apply conj.
  - intros Hexists.
    assert (Hkept : accountAlreadyExists (handle env ev s) = true).
    { destruct Hcases as [->|(_ & -> & _)]; done. }
    split; [done|]. intros env'. unfold render. by rewrite Hkept.
  - intros Hev. destruct Hcases as [->|(-> & _)]; done.
  - intros Hnot Hnow. destruct Hcases as [Hsame|(-> & _ & Hanswer)]; [|done].
    congruence.
Qed.

Lemma accountAlreadyExists_is_kept_witness :
  accountAlreadyExists
    (handle mountExistingEnv (EvAdvancePage 1)
       (handle mountExistingEnv EvValidationEffect initialState)) = true
  /\ (EvValidationEffect = EvValidationEffect
      /\ validateUserRegistrationRequest mountExistingEnv
           (validationCode mountExistingEnv) (validationEmail mountExistingEnv)
         = Resolved true).
Proof.
  split.
  - apply (proj1 (accountAlreadyExists_is_kept mountExistingEnv
                    (handle mountExistingEnv EvValidationEffect initialState)
                    (EvAdvancePage 1))).
    reflexivity.
  - apply (proj2 (proj2 (accountAlreadyExists_is_kept mountExistingEnv
                           initialState EvValidationEffect)));
      reflexivity.
Defined.

(** ** The account details page *)

Lemma reportedDetails_cases firstNameInput lastNameInput :
  reportedDetails firstNameInput lastNameInput
  = if negb (String.eqb firstNameInput EmptyString)
       && negb (String.eqb lastNameInput EmptyString)
    then Some {| firstName := firstNameInput; lastName := lastNameInput |}
    else None.
Proof.
  unfold reportedDetails. by destruct firstNameInput, lastNameInput.
Qed.

Lemma detailsChanged_buttonArea env s d :
  currentPage s = 2 ->
  buttonArea env (handle env (EvDetailsChanged d) s)
  = Resolved (BackNextButtons false 2 (pageCount env s)
                (negb (bool_decide (is_Some d)))).
Proof.
  intros Hcur. pose proof (pageCount_eq env s) as Hcount.
  unfold handle, runState. cbn [handler].
  unfold setAccountDetails, modify. cbn [fst snd].
  unfold buttonArea, isLastStep, runOutcome, canGoBackProgress, canProgress, jsIndex.
  rewrite (pageCount_state env (withAccountDetails d s) s).
  cbn [currentPage withAccountDetails]. rewrite Hcur.
  by destruct (Z.eqb_spec 2 (pageCount env s - 1)); [lia|].
Qed.

(** X15: the account details sub-screen and the pager together.  The
    sub-screen reports the two names as typed (nothing is trimmed) when
    both are non-empty and null otherwise; on the account details page
    the Next button is therefore disabled exactly when the first or the
    last name is empty, and the Back button is enabled. *)
Theorem accountDetails_gate (env : Env) (s : PagerState)
    (firstNameInput lastNameInput : string) :
  currentPage s = 2 ->
  accountDetails
    (handle env (EvDetailsChanged (reportedDetails firstNameInput lastNameInput)) s)
    = (if negb (String.eqb firstNameInput EmptyString)
          && negb (String.eqb lastNameInput EmptyString)
       then Some {| firstName := firstNameInput; lastName := lastNameInput |}
       else None)
  /\ buttonArea env
       (handle env (EvDetailsChanged (reportedDetails firstNameInput lastNameInput)) s)
     = Resolved
         (BackNextButtons false 2 (pageCount env s)
            (negb (negb (String.eqb firstNameInput EmptyString)
                   && negb (String.eqb lastNameInput EmptyString)))).
Proof.
  intros Hcur. rewrite reportedDetails_cases. split.
  - reflexivity.
  - rewrite (detailsChanged_buttonArea env s _ Hcur).
    by destruct (negb _ && negb _).
Qed.

Lemma accountDetails_gate_witness :
  buttonArea validatedEnv
    (handle validatedEnv (EvDetailsChanged (reportedDetails EmptyString "Byron"))
       filledState)
    = Resolved (BackNextButtons false 2 4 true)
  /\ buttonArea validatedEnv
       (handle validatedEnv (EvDetailsChanged (reportedDetails " " "Byron"))
          filledState)
     = Resolved (BackNextButtons false 2 4 false).
Proof.
  split.
  - apply (proj2 (accountDetails_gate validatedEnv filledState EmptyString "Byron"
                    eq_refl)).
  - apply (proj2 (accountDetails_gate validatedEnv filledState " " "Byron" eq_refl)).
Defined.

(** ** The cached EULA *)

(** X16: the EULA is fetched lazily and cached.  With a non-empty text
    in the cache nothing is called; without one the text is requested
    once and, when it arrives, stored, so that the load of the next
    render calls nothing.  A failed load stores nothing and is tried
    again by the next load; and since an empty text counts as no text, an
    EULA that arrives empty is requested again every time. *)
Theorem loadAndCacheEula_caches (env : Env) (s : PagerState) (text : string) :
  (eulaContent s = Some text -> text <> EmptyString ->
   loadAndCacheEula env s s = (Resolved tt, s, []))
  /\ (eulaContent s = None -> loadEULA env (language env) = Resolved text ->
      loadAndCacheEula env s s
        = (Resolved tt, withEulaContent (Some text) s, [CallLoadEULA (language env)])
      /\ runCalls (loadAndCacheEula env (handle env EvLoadEula s))
           (handle env EvLoadEula s)
         = if String.eqb text EmptyString
           then [CallLoadEULA (language env)]
           else [])
  /\ (forall e,
       eulaContent s = None -> loadEULA env (language env) = Rejected e ->
       loadAndCacheEula env s s = (Resolved tt, s, [CallLoadEULA (language env)])
       /\ runCalls (loadAndCacheEula env (handle env EvLoadEula s))
            (handle env EvLoadEula s)
          = [CallLoadEULA (language env)]).
Proof.
  repeat apply conj.
  - intros Hcache Htext. unfold loadAndCacheEula. rewrite Hcache.
    by destruct text.
  - intros Hcache Hload.
    assert (Hfirst :
      loadAndCacheEula env s s
      = (Resolved tt, withEulaContent (Some text) s, [CallLoadEULA (language env)])).
    { unfold loadAndCacheEula. rewrite Hcache. unfold_monad. by rewrite Hload. }
    split; [done|].
    unfold handle, runState. cbn [handler]. rewrite Hfirst. cbn [fst snd].
    unfold runCalls, loadAndCacheEula. cbn [eulaContent withEulaContent].
    destruct text; [|done]. unfold_monad. by rewrite Hload.
  - intros e Hcache Hload.
    assert (Hfirst :
      loadAndCacheEula env s s = (Resolved tt, s, [CallLoadEULA (language env)])).
    { unfold loadAndCacheEula. rewrite Hcache. unfold_monad. by rewrite Hload. }
    split; [done|].
    unfold handle, runState. cbn [handler]. rewrite Hfirst. cbn [fst snd].
    unfold runCalls. by rewrite Hfirst.
Qed.

Lemma loadAndCacheEula_caches_witness :
  loadAndCacheEula customEnv filledState filledState
    = (Resolved tt, filledState, [])
  /\ runCalls (loadAndCacheEula customEnv (handle customEnv EvLoadEula initialState))
       (handle customEnv EvLoadEula initialState) = []
  /\ runCalls (loadAndCacheEula mountEnv (handle mountEnv EvLoadEula initialState))
       (handle mountEnv EvLoadEula initialState) = [CallLoadEULA "en"].
Proof.
  split; [|split].
  - apply (proj1 (loadAndCacheEula_caches customEnv filledState "terms"));
      [reflexivity | discriminate].
  - apply (proj2 (proj1 (proj2 (loadAndCacheEula_caches customEnv initialState "terms"))
                    eq_refl eq_refl)).
  - apply (proj2 (proj2 (proj2 (loadAndCacheEula_caches mountEnv initialState "terms"))
                    (NetworkError "offline") eq_refl eq_refl)).
Defined.

(** ** The validity of the custom pages *)

(** X17: the validity reported by a custom page is enforced on its
    keyboard submit only.  On a custom page whose details were reported
    invalid, or not reported at all, the submit of the page does
    nothing, yet the Next button is enabled and [advancePage(1)] leaves
    the page: on the second-to-last page before the registration has
    succeeded it submits the registration, with one call, and otherwise
    it moves the index to the next page and calls nothing. *)
Theorem custom_page_validity_not_enforced (env : Env) (s : PagerState) (i : nat) :
  3 <= currentPage s < pageCount env s - 1 ->
  valid <$> (default ∅ (customAccountDetails s) !! (i + 1)%nat) <> Some true ->
  customPageSubmit env s i s = (Resolved tt, s, [])
  /\ buttonArea env s
     = Resolved (BackNextButtons false (currentPage s) (pageCount env s) false)
  /\ advancePage env s 1 s
     = if (currentPage s =? pageCount env s - 2) && negb (registrationSuccess env)
       then (Resolved tt, withHasAcknowledgedError false s,
             [CallCompleteRegistration
                (registrationPayload s
                   (flattenedDetailsOf (default ∅ (customAccountDetails s))))
                (validationCode env) (validationEmail env)])
       else (Resolved tt, withCurrentPage (currentPage s + 1) s, []).
Proof.
  intros Hrange Hinvalid.
  assert (Hvalid : validIndex env s) by (unfold validIndex; lia).
  destruct (currentPage_lookup env s Hvalid) as (page & Hpage & Hlookup).
  assert (Hforward : canGoForward page = Some true).
  { apply RegistrationPages_lookup in Hlookup
      as [[Hn ->]|[[Hn ->]|[[Hn ->]|[[Hn ->]|[Hn ->]]]]]; try lia; [done|].
    pose proof (pageCount_eq env s). lia. }
  repeat apply conj.
  - unfold customPageSubmit.
    destruct (customAccountDetails s) as [g|]; [|done]. cbn in Hinvalid.
    destruct (g !! (i + 1)%nat) as [entry|]; [|done]. cbn in Hinvalid.
    by destruct (valid entry).
  - destruct (proj1 (buttonArea_lemma env s) Hvalid) as (forward & Hfw & ->).
    unfold runOutcome in Hfw.
    rewrite (canProgress_run env s s page Hpage), Hforward in Hfw.
    injection Hfw as <-.
    destruct (Z.eqb_spec (currentPage s) (pageCount env s - 1)); [lia|].
    by destruct (Z.eqb_spec (currentPage s) 0); [lia|].
  - destruct (advancePage_cases env s s 1)
      as [Hz|Hf Hd|Hl Hd|Hp Hd Hs Hfw|Hnz Hf Hl Hgate]; try lia.
    + rewrite Hp, Z.eqb_refl, Hs. cbn [negb andb].
      apply attemptRegistration_run.
    + destruct (Z.eqb_spec (currentPage s) (pageCount env s - 2)) as [Hpen|Hpen];
        [|done].
      destruct (registrationSuccess env) eqn:Hsuccess; [done|].
      exfalso. apply Hgate.
      split; [done|]. split; [lia|]. split; [done|].
      by rewrite Hpage; cbn; rewrite Hforward.
Qed.

Lemma custom_page_validity_not_enforced_witness :
  customPageSubmit customEnv (withCurrentPage 3 initialState) 0
      (withCurrentPage 3 initialState)
    = (Resolved tt, withCurrentPage 3 initialState, [])
  /\ buttonArea customEnv (withCurrentPage 3 initialState)
     = Resolved (BackNextButtons false 3 6 false)
  /\ advancePage customEnv (withCurrentPage 3 initialState) 1
       (withCurrentPage 3 initialState)
     = (Resolved tt, withCurrentPage 4 initialState, []).
Proof.
  apply (custom_page_validity_not_enforced customEnv
           (withCurrentPage 3 initialState) 0).
  - vm_compute. split; [discriminate | reflexivity].
  - discriminate.
Defined.
